(** * runPreDeployTask: the pre-deploy task of a deployment

    A shallow embedding of [src/appservice/src/deploy/runPreDeployTask.ts]
    and the properties of its four stages: resolving the configured task,
    launching it, waiting for a process-end event, and handling the outcome.

    Conventions of the embedding.
    - A JavaScript string is the sequence of its code units; one [ascii] per
      code unit, so the strings covered are those with code units below 256.
    - [undefined] is [None]; a [number] holding an exit code is a [Z].
    - An object compared with [===] carries a reference ([task_ref],
      [item_ref]); two objects are identical when their references are.
    - An [async] function is a function of the [World] (the effects performed
      on the host so far and the telemetry properties of the action context)
      that ends in a value, in an exception, or never settles.
    - The host answers: the promises of [fetchTasks], [executeTask],
      [withProgress], [showErrorMessage] and [executeCommand] are fulfilled.
      The code awaits them without a [catch], so a rejection by the host
      would be thrown again by the caller; such runs are not covered. *)

From Stdlib Require Import ZArith Ascii String List Bool Lia.
From stdpp Require Import base option gmap strings pretty list.
Import ListNotations.

Local Open Scope string_scope.
Local Open Scope list_scope.

(** ** Strings *)

Module Js.

(** The double quote, as a one-character string. *)
Definition quote : string := String (ascii_of_nat 34) EmptyString.

(** [String.prototype.toLowerCase], on one code unit below 256: the
    letters A-Z and the upper-case letters of Latin-1 move up by 32. *)
Definition toLowerCaseUnit (c : ascii) : ascii :=
  let n := N_of_ascii c in
  if ((65 <=? n)%N && (n <=? 90)%N) || ((192 <=? n)%N && (n <=? 214)%N)
     || ((216 <=? n)%N && (n <=? 222)%N)
  then ascii_of_N (n + 32) else c.

Fixpoint toLowerCase (s : string) : string :=
  match s with
  | EmptyString => EmptyString
  | String c rest => String (toLowerCaseUnit c) (toLowerCase rest)
  end.

(** The class [\s] of a regular expression, on code units below 256:
    tab, line feed, vertical tab, form feed, carriage return, space and
    the no-break space. *)
Definition isWhiteSpace (c : ascii) : bool :=
  let n := N_of_ascii c in
  ((9 <=? n)%N && (n <=? 13)%N) || (n =? 32)%N || (n =? 160)%N.

(** What follows the first colon of [s], when there is one: the rest of
    the subject once [^[^:]*:] has matched. *)
Fixpoint afterFirstColon (s : string) : option string :=
  match s with
  | EmptyString => None
  | String c rest =>
      if Ascii.eqb c ":"%char then Some rest else afterFirstColon rest
  end.

(** The rest of the subject once a greedy [\s*] has matched. *)
Fixpoint skipWhiteSpace (s : string) : string :=
  match s with
  | EmptyString => EmptyString
  | String c rest => if isWhiteSpace c then skipWhiteSpace rest else s
  end.

(** Truthiness of a [string | undefined]. *)
Definition truthy (s : option string) : bool :=
  match s with
  | Some (String _ _) => true
  | _ => false
  end.

(** [String(b)] for a boolean. *)
Definition String_of_bool (b : bool) : string :=
  if b then "true" else "false".

(** [String(n)] for an integer [number | undefined]. *)
Definition String_of_number (n : option Z) : string :=
  match n with
  | None => "undefined"
  | Some z => pretty z
  end.

End Js.

(** ** Data model *)

(** The three fields of [IPreDeployTaskResult]. *)
Record IPreDeployTaskResult := {
  taskName : option string;
  exitCode : option Z;
  failedToFindTask : bool
}.

(** [vscode.Uri], of which the code reads [fsPath]. *)
Record Uri := { fsPath : string }.

(** [Partial<vscode.WorkspaceFolder>]: the [uri] may be missing. *)
Record WorkspaceFolder := { uri : option Uri }.

(** The [scope] of a [vscode.Task]: a workspace folder, one of the two
    numbers [TaskScope.Global] and [TaskScope.Workspace], or [undefined]. *)
Inductive Scope :=
| ScopeUndefined
| ScopeGlobal
| ScopeWorkspace
| ScopeFolder (folder : WorkspaceFolder).

(** A [vscode.Task]: its reference, its name and its scope. *)
Record Task := {
  task_ref : nat;
  name : string;
  scope : Scope
}.

Record TaskExecution := { task : Task }.

(** [vscode.TaskProcessEndEvent]; [processExitCode] is its [exitCode]. *)
Record TaskProcessEndEvent := {
  execution : TaskExecution;
  processExitCode : option Z
}.

(** [vscode.MessageItem]: its reference and its title. *)
Record MessageItem := {
  item_ref : nat;
  title : string
}.

(** [a === b] on tasks and on message items. *)
Definition sameTask (a b : Task) : bool := Nat.eqb (task_ref a) (task_ref b).

Definition sameItem (a : option MessageItem) (b : MessageItem) : bool :=
  match a with
  | Some a' => Nat.eqb (item_ref a') (item_ref b)
  | None => false
  end.

(** [scope === undefined]. *)
Definition isUndefined (s : Scope) : bool :=
  match s with
  | ScopeUndefined => true
  | _ => false
  end.

(** [typeof scope === 'object']. *)
Definition isObject (s : Scope) : bool :=
  match s with
  | ScopeFolder _ => true
  | _ => false
  end.

(** [scope.uri] after the cast to [Partial<WorkspaceFolder>]: a property
    read on a number gives [undefined]. *)
Definition scopeUri (s : Scope) : option Uri :=
  match s with
  | ScopeFolder folder => uri folder
  | _ => None
  end.

(** Modelled from the spec: the enum [ScmType] of [../ScmType] is not among
    the sources; the spec calls its two server-side build modes LocalGit and
    GitHub, and [scmType] is a string. *)
Module ScmType.
Definition LocalGit : string := "LocalGit".
Definition GitHub : string := "GitHub".
End ScmType.

(** [scmType === member], for [scmType : string | undefined]. *)
Definition scmIs (scmType : option string) (member : string) : bool :=
  match scmType with
  | Some s => String.eqb s member
  | None => false
  end.

(** The two functions imported from [../utils/pathUtils], which the sources
    do not include: the code is verified for any pair of them. *)
Class PathUtils := {
  isPathEqual : string -> string -> bool;
  isSubpath : string -> string -> bool
}.

(** Modelled from the spec: [localize] of [../localize] is not among the
    sources; the spec shows the messages of the default bundle, which is the
    message given in the code with [{0}] replaced by the first argument,
    when there is one ([undefined] is printed as such). *)
Fixpoint format0 (message arg : string) : string :=
  match message with
  | String "{" (String "0" (String "}" rest)) => arg ++ format0 rest arg
  | String c rest => String c (format0 rest arg)
  | EmptyString => EmptyString
  end.

Definition localize (key message : string) (args : list (option string)) : string :=
  match args with
  | [] => message
  | Some arg :: _ => format0 message arg
  | None :: _ => format0 message "undefined"
  end.

(** ** The host and the world *)

(** What the code asks of the editor, in the order it asks. *)
Inductive Effect :=
| AppendLog (message : string)
| FetchTasks
| WithProgress (progressTitle : string)
| ExecuteTask (launched : Task)
| OnDidEndTaskProcess
| Dispose
| ShowErrorMessage (message : string) (modal : bool) (items : list MessageItem)
| ExecuteCommand (command : string).

(** What the editor answers: the extension prefix [ext.prefix], the
    configuration by section, resource path and key, the tasks that
    [fetchTasks] lists, the process-end events fired once the listener is
    registered, in order, and the button of the modal dialog the user picks,
    by position ([None] when the dialog is closed). *)
Record Host := {
  prefix : string;
  getConfiguration : string -> string -> string -> option string;
  registeredTasks : list Task;
  processEnds : list TaskProcessEndEvent;
  picked : option nat
}.

(** The effects performed so far, oldest first, and
    [context.telemetry.properties]. *)
Record World := {
  effects : list Effect;
  properties : gmap string string
}.

Inductive Exception :=
| Error (message : string)
| UserCancelledError.

(** How an [async] function ends: its promise is fulfilled, is rejected, or
    stays pending for ever. *)
Inductive Outcome (A : Type) :=
| Returned (value : A)
| Thrown (e : Exception)
| Pending.

Arguments Returned {A} value.
Arguments Thrown {A} e.
Arguments Pending {A}.

Definition Async (A : Type) : Type := World -> Outcome A * World.

Definition ret {A} (a : A) : Async A := fun w => (Returned a, w).

Definition throw {A} (e : Exception) : Async A := fun w => (Thrown e, w).

Definition bind {A B} (m : Async A) (k : A -> Async B) : Async B :=
  fun w =>
    match m w with
    | (Returned a, w') => k a w'
    | (Thrown e, w') => (Thrown e, w')
    | (Pending, w') => (Pending, w')
    end.

Notation "'let_await' x <- m ; k" := (bind m (fun x => k))
  (at level 10, x name, m at level 100, k at level 200).
Notation "'await' m ; k" := (bind m (fun _ => k))
  (at level 10, m at level 100, k at level 200).

Definition perform (e : Effect) : Async unit :=
  fun w => (Returned tt, {| effects := effects w ++ [e]; properties := properties w |}).

(** [context.telemetry.properties[key] = value]. *)
Definition setProperty (key value : string) : Async unit :=
  fun w => (Returned tt, {| effects := effects w; properties := <[key := value]> (properties w) |}).

(** [vscode.tasks.fetchTasks()]. *)
Definition fetchTasks (h : Host) : Async (list Task) :=
  await perform FetchTasks; ret (registeredTasks h).

(** [vscode.window.showErrorMessage(message, { modal }, ...items)]: the
    promise gives back the very item picked, or [undefined]. *)
Definition showErrorMessage (h : Host) (message : string) (modal : bool)
    (items : list MessageItem) : Async (option MessageItem) :=
  await perform (ShowErrorMessage message modal items);
  ret (match picked h with
       | Some i => nth_error items i
       | None => None
       end).

(** [vscode.window.withProgress({ location, title }, body)]. *)
Definition withProgress {A} (progressTitle : string) (body : Async A) : Async A :=
  await perform (WithProgress progressTitle); body.

(** ** The code *)

Section RunPreDeployTask.

Context `{PathUtils}.

Definition isTaskEqual (expectedName expectedPath : string) (actualTask : Task) : bool :=
  if String.eqb (Js.toLowerCase expectedName) (Js.toLowerCase (name actualTask))
     && negb (isUndefined (scope actualTask))
  then
    match scopeUri (scope actualTask) with
    | Some u => isPathEqual (fsPath u) expectedPath || isSubpath (fsPath u) expectedPath
    | None => false
    end
  else false.

Definition isScopeEqual (t : Task) (workspaceFsPath : string) : bool :=
  if isObject (scope t) then
    match scopeUri (scope t) with
    | Some u => isPathEqual (fsPath u) workspaceFsPath || isSubpath (fsPath u) workspaceFsPath
    | None => false
    end
  else false.

(** The state of one wait: whether [errorListener] is still registered,
    and what the promise was resolved with, if it was. *)
Record Wait := {
  listening : bool;
  promise : option IPreDeployTaskResult
}.

(** [errorListener.dispose()]. *)
Definition dispose (s : Wait * World) : Wait * World :=
  ({| listening := false; promise := promise (fst s) |},
   {| effects := effects (snd s) ++ [Dispose]; properties := properties (snd s) |}).

(** [resolve(result)]: a promise already resolved keeps its value. *)
Definition resolve (result : IPreDeployTaskResult) (s : Wait * World) : Wait * World :=
  ({| listening := listening (fst s);
      promise := match promise (fst s) with
                 | Some r => Some r
                 | None => Some result
                 end |},
   snd s).

(** [code !== 0] and [code !== undefined], for a [number | undefined]. *)
Definition isNonZero (code : option Z) : bool :=
  match code with
  | Some z => negb (z =? 0)%Z
  | None => true
  end.

Definition isDefined (code : option Z) : bool :=
  match code with
  | Some _ => true
  | None => false
  end.

(** The callback given to [onDidEndTaskProcess], run on one event. *)
Definition errorListener (preDeployTask : Task) (deployFsPath : string)
    (e : TaskProcessEndEvent) (s : Wait * World) : Wait * World :=
  let s1 :=
    if isScopeEqual (task (execution e)) deployFsPath && isNonZero (processExitCode e)
    then resolve {| taskName := Some (name (task (execution e)));
                    exitCode := processExitCode e;
                    failedToFindTask := false |} (dispose s)
    else s in
  if sameTask (task (execution e)) preDeployTask
  then resolve {| taskName := Some (name (task (execution e)));
                  exitCode := processExitCode e;
                  failedToFindTask := false |} (dispose s1)
  else s1.

(** The event emitter: each event goes to the listener while it is
    registered. *)
Fixpoint fire (preDeployTask : Task) (deployFsPath : string)
    (events : list TaskProcessEndEvent) (s : Wait * World) : Wait * World :=
  match events with
  | [] => s
  | e :: later =>
      if listening (fst s)
      then fire preDeployTask deployFsPath later (errorListener preDeployTask deployFsPath e s)
      else s
  end.

Definition waitForPreDeployTask (h : Host) (preDeployTask : Task) (deployFsPath : string)
    : Async IPreDeployTaskResult :=
  fun w =>
    let registered :=
      ({| listening := true; promise := None |},
       {| effects := effects w ++ [OnDidEndTaskProcess]; properties := properties w |}) in
    let s := fire preDeployTask deployFsPath (processEnds h) registered in
    match promise (fst s) with
    | Some result => (Returned result, snd s)
    | None => (Pending, snd s)
    end.

Definition preDeployTaskKey : string := "preDeployTask".

(** [taskName.replace(/^[^:]*:\s*/, '')]. *)
Definition taskNameWithoutSource (taskName : string) : string :=
  match Js.afterFirstColon taskName with
  | Some rest => Js.skipWhiteSpace rest
  | None => taskName
  end.

(** [a || b] on two results of [Array.prototype.find]. *)
Definition orElse {A} (a b : option A) : option A :=
  match a with
  | Some _ => a
  | None => b
  end.

Definition tryRunPreDeployTask (h : Host) (deployFsPath : string) (scmType : option string)
    : Async IPreDeployTaskResult :=
  let taskName := getConfiguration h (prefix h) deployFsPath preDeployTaskKey in
  await setProperty "hasPreDeployTask" (Js.String_of_bool (Js.truthy taskName));
  let preDeployTaskResult :=
    {| taskName := taskName; exitCode := None; failedToFindTask := false |} in
  match taskName with
  | Some (String _ _ as taskName') =>
      (* if (taskName): neither undefined nor the empty string *)
      if scmIs scmType ScmType.LocalGit || scmIs scmType ScmType.GitHub then
        await perform (AppendLog (localize "ignoringPreDeployTask"
          ("WARNING: Ignoring preDeployTask " ++ Js.quote ++ "{0}" ++ Js.quote
           ++ " for non-zip deploy.") [Some taskName']));
        ret preDeployTaskResult
      else
        let_await tasks <- fetchTasks h;
        let withoutSource := taskNameWithoutSource taskName' in
        let preDeployTask :=
          orElse (List.find (isTaskEqual taskName' deployFsPath) tasks)
                 (List.find (isTaskEqual withoutSource deployFsPath) tasks) in
        match preDeployTask with
        | Some preDeployTask' =>
            let progressMessage :=
              localize "runningTask"
                ("Running preDeployTask " ++ Js.quote ++ "{0}" ++ Js.quote ++ "...")
                [Some taskName'] in
            withProgress progressMessage
              (await perform (ExecuteTask preDeployTask');
               let_await result <- waitForPreDeployTask h preDeployTask' deployFsPath;
               await setProperty "preDeployTaskExitCode" (Js.String_of_number (exitCode result));
               ret result)
        | None =>
            ret {| taskName := taskName; exitCode := None; failedToFindTask := true |}
        end
  | _ => ret preDeployTaskResult
  end.

Definition deployAnyway : MessageItem :=
  {| item_ref := 0; title := localize "deployAnyway" "Deploy Anyway" [] |}.

Definition openSettings : MessageItem :=
  {| item_ref := 1; title := localize "openSettings" "Open Settings" [] |}.

Definition handleFailedPreDeployTask (h : Host) (preDeployResult : IPreDeployTaskResult)
    : Async unit :=
  let message :=
    localize "taskFailed"
      ("Errors exist after running preDeployTask " ++ Js.quote ++ "{0}" ++ Js.quote
       ++ ". See task output for more info.")
      [taskName preDeployResult] in
  let_await result <- showErrorMessage h message true [deployAnyway; openSettings];
  if sameItem result deployAnyway then
    setProperty "preDeployTaskResponse" "deployAnyway"
  else if sameItem result openSettings then
    await setProperty "preDeployTaskResponse" "openSettings";
    await perform (ExecuteCommand "workbench.action.openSettings");
    throw UserCancelledError
  else
    await setProperty "preDeployTaskResponse" "cancel";
    throw UserCancelledError.

(** The message of the error thrown when the task is not found. *)
Definition failedToFindMessage (h : Host) (taskName : option string) : string :=
  "Failed to find pre-deploy task " ++ Js.quote
  ++ match taskName with Some n => n | None => "undefined" end
  ++ Js.quote ++ ". Modify your tasks or the setting " ++ Js.quote
  ++ prefix h ++ ".preDeployTask" ++ Js.quote ++ ".".

Definition runPreDeployTask (h : Host) (deployFsPath : string) (scmType : option string)
    : Async unit :=
  let_await preDeployResult <- tryRunPreDeployTask h deployFsPath scmType;
  if failedToFindTask preDeployResult then
    throw (Error (failedToFindMessage h (taskName preDeployResult)))
  else if isDefined (exitCode preDeployResult) && isNonZero (exitCode preDeployResult)
  then handleFailedPreDeployTask h preDeployResult
  else ret tt.

End RunPreDeployTask.

(** ** The path functions of the spec *)

(** Modelled from the spec: [isPathEqual] and [isSubpath] of
    [../utils/pathUtils] are not among the sources. The spec has the scope
    path equal to the deploy path after normalization, or an ancestor of it
    on path-segment boundaries, as a relation on normalized lists of
    segments: a path is cut at each separator and empty segments are
    dropped. *)
Module SpecPath.

Inductive PathRelation := Equal | AncestorOf | Unrelated.

(** The segments of [s]; [current] is the segment being read, reversed. *)
Fixpoint segmentsFrom (s : string) (current : string) : list string :=
  let close :=
    match current with
    | EmptyString => []
    | _ => [String.rev current]
    end in
  match s with
  | EmptyString => close
  | String c rest =>
      if Ascii.eqb c "/"%char then close ++ segmentsFrom rest EmptyString
      else segmentsFrom rest (String c current)
  end.

Definition segments (s : string) : list string := segmentsFrom s EmptyString.

Fixpoint pathRelation (a b : list string) : PathRelation :=
  match a, b with
  | [], [] => Equal
  | [], _ :: _ => AncestorOf
  | _ :: _, [] => Unrelated
  | x :: a', y :: b' => if String.eqb x y then pathRelation a' b' else Unrelated
  end.

#[export] Instance pathUtils : PathUtils := {|
  isPathEqual fsPath1 fsPath2 :=
    match pathRelation (segments fsPath1) (segments fsPath2) with
    | Equal => true
    | _ => false
    end;
  isSubpath expectedParent expectedChild :=
    match pathRelation (segments expectedParent) (segments expectedChild) with
    | AncestorOf => true
    | _ => false
    end
|}.

End SpecPath.

Export SpecPath.


(** ** Vocabulary of the properties *)

Section Vocabulary.

Context `{PathUtils}.

(** The first test of the listener: a task of the deploy path's scope
    ended with an exit code that is not 0. *)
Definition failedInScope (deployFsPath : string) (e : TaskProcessEndEvent) : bool :=
  isScopeEqual (task (execution e)) deployFsPath && isNonZero (processExitCode e).

(** The listener reacts to [e]: one of its two tests succeeds. *)
Definition reacts (preDeployTask : Task) (deployFsPath : string)
    (e : TaskProcessEndEvent) : bool :=
  failedInScope deployFsPath e || sameTask (task (execution e)) preDeployTask.

(** What the promise is resolved with on [e]. *)
Definition resultOf (e : TaskProcessEndEvent) : IPreDeployTaskResult :=
  {| taskName := Some (name (task (execution e)));
     exitCode := processExitCode e;
     failedToFindTask := false |}.

(** The calls of [dispose] made on an event the listener reacts to. *)
Definition disposals (preDeployTask : Task) (deployFsPath : string)
    (e : TaskProcessEndEvent) : list Effect :=
  (if failedInScope deployFsPath e then [Dispose] else [])
  ++ (if sameTask (task (execution e)) preDeployTask then [Dispose] else []).

(** The task that the two searches of [tryRunPreDeployTask] settle on. *)
Definition searched (h : Host) (deployFsPath taskName : string) : option Task :=
  orElse (List.find (isTaskEqual taskName deployFsPath) (registeredTasks h))
         (List.find (isTaskEqual (taskNameWithoutSource taskName) deployFsPath)
                    (registeredTasks h)).

End Vocabulary.

(** The source-control modes with a build on the server. *)
Definition serverSideBuild (scmType : option string) : bool :=
  scmIs scmType ScmType.LocalGit || scmIs scmType ScmType.GitHub.

(** The name configured for a deploy path. *)
Definition configured (h : Host) (deployFsPath : string) : option string :=
  getConfiguration h (prefix h) deployFsPath "preDeployTask".



(** A resolved promise names a task and does not report a missing one. *)
Definition named (r : IPreDeployTaskResult) : Prop :=
  failedToFindTask r = false /\ taskName r <> None.

Definition settledWell (s : Wait * World) : Prop :=
  match promise (fst s) with
  | Some r => named r
  | None => True
  end.

(** The world after more effects and with one more telemetry property. *)
Definition after (w : World) (more : list Effect) : World :=
  {| effects := effects w ++ more; properties := properties w |}.

Definition recording (w : World) (key value : string) : World :=
  {| effects := effects w; properties := <[key := value]> (properties w) |}.

(** The three messages shown to the user. *)
Definition ignoringMessage (taskName : string) : string :=
  "WARNING: Ignoring preDeployTask " ++ Js.quote ++ taskName ++ Js.quote
  ++ " for non-zip deploy.".

Definition runningMessage (taskName : string) : string :=
  "Running preDeployTask " ++ Js.quote ++ taskName ++ Js.quote ++ "...".

Definition taskFailedMessage (taskName : string) : string :=
  "Errors exist after running preDeployTask " ++ Js.quote ++ taskName ++ Js.quote
  ++ ". See task output for more info.".

(** The line logged when a configured task is left to the server. *)
Definition skipLog (taskName : option string) : list Effect :=
  match taskName with
  | Some (String _ _ as n) => [AppendLog (ignoringMessage n)]
  | _ => []
  end.

(** The modal dialog opened for a failed task. *)
Definition failurePrompt (r : IPreDeployTaskResult) : Effect :=
  ShowErrorMessage
    (taskFailedMessage (match taskName r with Some n => n | None => "undefined" end))
    true [deployAnyway; openSettings].

(** How [tryRunPreDeployTask] ends once a task is launched, from how the
    wait ends. *)
Definition launched (waited : Outcome IPreDeployTaskResult * World)
    : Outcome IPreDeployTaskResult * World :=
  match waited with
  | (Returned r, w') =>
      (Returned r, recording w' "preDeployTaskExitCode" (Js.String_of_number (exitCode r)))
  | (Thrown e, w') => (Thrown e, w')
  | (Pending, w') => (Pending, w')
  end.

(** The number of modal error dialogs among some effects. *)
Definition prompts (l : list Effect) : nat :=
  length (List.filter (fun e => match e with ShowErrorMessage _ _ _ => true | _ => false end) l).

(** The number of calls to the task registry among some effects. *)
Definition registryCalls (l : list Effect) : nat :=
  length (List.filter (fun e => match e with
                                 | FetchTasks | ExecuteTask _ | OnDidEndTaskProcess => true
                                 | _ => false
                                 end) l).

(** ** Vocabulary of the further properties *)

(** Every code unit of [s] is white space. *)
Fixpoint allWhiteSpace (s : string) : bool :=
  match s with
  | EmptyString => true
  | String c rest => Js.isWhiteSpace c && allWhiteSpace rest
  end.

(** [s] begins with a white space. *)
Definition beginsWithWhiteSpace (s : string) : bool :=
  match s with
  | EmptyString => false
  | String c _ => Js.isWhiteSpace c
  end.

(** The task [t] with its name in lower case. *)
Definition lowered (t : Task) : Task :=
  {| task_ref := task_ref t; name := Js.toLowerCase (name t); scope := scope t |}.

(** The tasks executed and the commands run among some effects, oldest
    first. *)
Fixpoint executions (l : list Effect) : list Task :=
  match l with
  | [] => []
  | ExecuteTask t :: rest => t :: executions rest
  | _ :: rest => executions rest
  end.

Fixpoint commands (l : list Effect) : list string :=
  match l with
  | [] => []
  | ExecuteCommand c :: rest => c :: commands rest
  | _ :: rest => commands rest
  end.

(** The telemetry properties the code writes. *)
Definition written (key : string) : bool :=
  String.eqb key "hasPreDeployTask" || String.eqb key "preDeployTaskExitCode"
  || String.eqb key "preDeployTaskResponse".

(** ** Scenarios *)

(** A world in which nothing has happened yet. *)
Definition world0 : World := {| effects := []; properties := ∅ |}.

(** A workspace folder at [path], as a task scope. *)
Definition folderAt (path : string) : Scope :=
  ScopeFolder {| uri := Some {| fsPath := path |} |}.

(** A host with the extension prefix [appService], one name configured for
    every path (or none), and the given tasks, events and answer. *)
Definition hostOf (name : option string) (tasks : list Task)
    (events : list TaskProcessEndEvent) (answer : option nat) : Host :=
  {| prefix := "appService";
     getConfiguration := fun section _ key =>
       if String.eqb section "appService" && String.eqb key "preDeployTask"
       then name else None;
     registeredTasks := tasks;
     processEnds := events;
     picked := answer |}.

Definition ended (t : Task) (code : option Z) : TaskProcessEndEvent :=
  {| execution := {| task := t |}; processExitCode := code |}.

Definition build : Task :=
  {| task_ref := 1; name := "build"; scope := folderAt "/proj" |}.

Definition lint : Task :=
  {| task_ref := 2; name := "lint"; scope := folderAt "/proj" |}.

Definition elsewhere : Task :=
  {| task_ref := 3; name := "other"; scope := folderAt "/elsewhere" |}.



Definition funcBuild : Task :=
  {| task_ref := 6; name := "func: build"; scope := folderAt "/proj" |}.

Definition globalBuild : Task :=
  {| task_ref := 7; name := "build"; scope := ScopeGlobal |}.

(** ** Sanity checks of the embedding *)

Example toLowerCase_mixed :
  Js.toLowerCase "Func: Extensions Install" = "func: extensions install".
Proof. reflexivity. Qed.

Example String_of_number_samples :
  map Js.String_of_number [Some 0%Z; Some 1%Z; Some 127%Z; Some (-1)%Z; Some 1000%Z; None]
  = ["0"; "1"; "127"; "-1"; "1000"; "undefined"].
Proof. reflexivity. Qed.

Example localize_ignoring :
  localize "ignoringPreDeployTask"
    "WARNING: Ignoring preDeployTask {0} for non-zip deploy." [Some "build"]
  = "WARNING: Ignoring preDeployTask build for non-zip deploy.".
Proof. reflexivity. Qed.

Example taskNameWithoutSource_samples :
  map taskNameWithoutSource
      ["func: extensions install"; "extensions install"; "a:b: c"; ":x"; "npm:"]
  = ["extensions install"; "extensions install"; "b: c"; "x"; EmptyString].
Proof. reflexivity. Qed.

Example run_with_failing_dependency :
  runPreDeployTask
    (hostOf (Some "Build") [lint; build]
            [ended elsewhere (Some 1%Z); ended lint (Some 2%Z); ended build (Some 0%Z)]
            (Some 1))
    "/proj/sub" None world0
  = (Thrown UserCancelledError,
     {| effects :=
          [FetchTasks; WithProgress (runningMessage "Build"); ExecuteTask build;
           OnDidEndTaskProcess; Dispose;
           ShowErrorMessage (taskFailedMessage "lint") true [deployAnyway; openSettings];
           ExecuteCommand "workbench.action.openSettings"];
        properties :=
          <["preDeployTaskResponse" := "openSettings"]>
            (<["preDeployTaskExitCode" := "2"]>
               (<["hasPreDeployTask" := "true"]> ∅)) |}).
Proof. reflexivity. Qed.

Example run_never_settles :
  fst (runPreDeployTask
         (hostOf (Some "build") [build] [ended elsewhere (Some 1%Z); ended lint (Some 0%Z)] None)
         "/proj" None world0)
  = Pending.
Proof. reflexivity. Qed.

Example segments_sample : segments "/proj//sub/" = ["proj"; "sub"].
Proof. reflexivity. Qed.

Example isSubpath_samples :
  map (fun p => (isPathEqual "/proj" p, isSubpath "/proj" p))
      ["/proj"; "/proj/sub"; "/project"; "/"; "/proj/"]
  = [(true, false); (false, true); (false, false); (false, false); (true, false)].
Proof. reflexivity. Qed.

(** ** The wait *)

Section WaitFacts.

Context `{PathUtils}.

Variables (preDeployTask : Task) (deployFsPath : string).

Lemma errorListener_ignores e s :
  reacts preDeployTask deployFsPath e = false ->
  errorListener preDeployTask deployFsPath e s = s.
Proof.
  unfold reacts, failedInScope, errorListener.
  intros Hno. apply orb_false_iff in Hno as [Hfail Hsame].
  now rewrite Hfail, Hsame.
Qed.

Lemma fire_deaf events s :
  listening (fst s) = false ->
  fire preDeployTask deployFsPath events s = s.
Proof. intros Hoff. destruct events; simpl; [reflexivity | now rewrite Hoff]. Qed.

Lemma fire_skips pre later s :
  Forall (fun e => reacts preDeployTask deployFsPath e = false) pre ->
  fire preDeployTask deployFsPath (pre ++ later) s
  = fire preDeployTask deployFsPath later s.
Proof.
  induction 1 as [| e pre He _ IH]; [reflexivity |].
  simpl. destruct (listening (fst s)) eqn:Hon.
  - now rewrite errorListener_ignores, IH.
  - symmetry. now apply fire_deaf.
Qed.

(** On the first event it reacts to, the listener is disposed of and the
    promise takes the name and the exit code of the event. *)
Lemma errorListener_settles e w :
  reacts preDeployTask deployFsPath e = true ->
  errorListener preDeployTask deployFsPath e
    ({| listening := true; promise := None |}, w)
  = ({| listening := false; promise := Some (resultOf e) |},
     after w (disposals preDeployTask deployFsPath e)).
Proof.
  unfold reacts, errorListener, disposals, after, resultOf.
  fold (failedInScope deployFsPath e).
  intros Hyes.
  destruct (failedInScope deployFsPath e),
           (sameTask (task (execution e)) preDeployTask);
    try discriminate; unfold resolve, dispose; simpl;
    rewrite <- ?app_assoc, ?app_nil_r; reflexivity.
Qed.

Lemma fire_first pre e later w :
  Forall (fun e' => reacts preDeployTask deployFsPath e' = false) pre ->
  reacts preDeployTask deployFsPath e = true ->
  fire preDeployTask deployFsPath (pre ++ e :: later)
    ({| listening := true; promise := None |}, w)
  = ({| listening := false; promise := Some (resultOf e) |},
     after w (disposals preDeployTask deployFsPath e)).
Proof.
  intros Hpre He. rewrite fire_skips by assumption.
  simpl. rewrite errorListener_settles by assumption.
  now apply fire_deaf.
Qed.

Lemma waitForPreDeployTask_first h pre e later w :
  processEnds h = pre ++ e :: later ->
  Forall (fun e' => reacts preDeployTask deployFsPath e' = false) pre ->
  reacts preDeployTask deployFsPath e = true ->
  waitForPreDeployTask h preDeployTask deployFsPath w
  = (Returned (resultOf e),
     after w (OnDidEndTaskProcess :: disposals preDeployTask deployFsPath e)).
Proof.
  intros Hends Hpre He. unfold waitForPreDeployTask.
  rewrite Hends, (fire_first pre e later _ Hpre He). simpl.
  unfold after. simpl. now rewrite <- app_assoc.
Qed.

Lemma resolve_dispose_well r s :
  named r -> settledWell s -> settledWell (resolve r (dispose s)).
Proof.
  unfold settledWell, resolve, dispose. simpl.
  destruct (promise (fst s)); auto.
Qed.

Lemma errorListener_well e s :
  settledWell s -> settledWell (errorListener preDeployTask deployFsPath e s).
Proof.
  intros Hs. unfold errorListener.
  assert (Hr : named (resultOf e)) by (split; [reflexivity | discriminate]).
  destruct (isScopeEqual _ _ && isNonZero _), (sameTask _ _);
    auto using resolve_dispose_well.
Qed.

Lemma fire_well events s :
  settledWell s -> settledWell (fire preDeployTask deployFsPath events s).
Proof.
  revert s. induction events as [| e later IH]; intros s Hs; simpl; [assumption |].
  destruct (listening (fst s)); [| assumption].
  apply IH. now apply errorListener_well.
Qed.

Lemma waitForPreDeployTask_named h w r w' :
  waitForPreDeployTask h preDeployTask deployFsPath w = (Returned r, w') ->
  named r.
Proof.
  unfold waitForPreDeployTask. intros Hwait.
  pose proof (fire_well (processEnds h)
    ({| listening := true; promise := None |},
     {| effects := effects w ++ [OnDidEndTaskProcess]; properties := properties w |}) I) as Hwell.
  unfold settledWell in Hwell.
  destruct (promise (fst (fire _ _ _ _))) as [r0 |]; [| discriminate].
  now inversion Hwait; subst.
Qed.

(** The listener only disposes: it adds no dialog. *)
Lemma errorListener_prompts e s :
  prompts (effects (snd (errorListener preDeployTask deployFsPath e s)))
  = prompts (effects (snd s)).
Proof.
  unfold errorListener, prompts.
  destruct (isScopeEqual _ _ && isNonZero _), (sameTask _ _); simpl;
    rewrite ?List.filter_app; simpl; rewrite ?app_nil_r; reflexivity.
Qed.

Lemma fire_prompts events s :
  prompts (effects (snd (fire preDeployTask deployFsPath events s)))
  = prompts (effects (snd s)).
Proof.
  revert s. induction events as [| e later IH]; intros s; simpl; [reflexivity |].
  destruct (listening (fst s)); [| reflexivity].
  now rewrite IH, errorListener_prompts.
Qed.



End WaitFacts.

(** ** The resolver and the launcher *)

Section ResolverFacts.

Context `{PathUtils}.

Variables (h : Host) (deployFsPath : string) (scmType : option string).

Lemma localize_ignoringMessage n :
  localize "ignoringPreDeployTask"
    ("WARNING: Ignoring preDeployTask " ++ Js.quote ++ "{0}" ++ Js.quote
     ++ " for non-zip deploy.") [Some n]
  = ignoringMessage n.
Proof. reflexivity. Qed.

Lemma localize_runningMessage n :
  localize "runningTask"
    ("Running preDeployTask " ++ Js.quote ++ "{0}" ++ Js.quote ++ "...") [Some n]
  = runningMessage n.
Proof. reflexivity. Qed.

(** Nothing configured, or the empty string: only the telemetry property
    is written. *)
Lemma tryRun_unconfigured w :
  Js.truthy (configured h deployFsPath) = false ->
  tryRunPreDeployTask h deployFsPath scmType w
  = (Returned {| taskName := configured h deployFsPath;
                 exitCode := None;
                 failedToFindTask := false |},
     recording w "hasPreDeployTask" "false").
Proof.
  unfold tryRunPreDeployTask, configured, preDeployTaskKey.
  destruct (getConfiguration h (prefix h) deployFsPath "preDeployTask") as [[| c n] |];
    simpl; intros Hfalsy; try discriminate; reflexivity.
Qed.

(** A name configured, a build on the server: one line in the log. *)
Lemma tryRun_skipped w n :
  configured h deployFsPath = Some n ->
  Js.truthy (Some n) = true ->
  serverSideBuild scmType = true ->
  tryRunPreDeployTask h deployFsPath scmType w
  = (Returned {| taskName := Some n; exitCode := None; failedToFindTask := false |},
     after (recording w "hasPreDeployTask" "true") [AppendLog (ignoringMessage n)]).
Proof.
  unfold tryRunPreDeployTask, configured, preDeployTaskKey, serverSideBuild.
  intros -> Htruthy Hskip. destruct n as [| c n]; [discriminate |].
  rewrite Hskip, localize_ignoringMessage. reflexivity.
Qed.

(** A name configured, no build on the server, no task found. *)
Lemma tryRun_not_found w n :
  configured h deployFsPath = Some n ->
  Js.truthy (Some n) = true ->
  serverSideBuild scmType = false ->
  searched h deployFsPath n = None ->
  tryRunPreDeployTask h deployFsPath scmType w
  = (Returned {| taskName := Some n; exitCode := None; failedToFindTask := true |},
     after (recording w "hasPreDeployTask" "true") [FetchTasks]).
Proof.
  unfold tryRunPreDeployTask, configured, preDeployTaskKey, serverSideBuild, searched.
  intros -> Htruthy Hskip Hnone. destruct n as [| c n]; [discriminate |].
  rewrite Hskip. unfold fetchTasks, bind, setProperty, perform, ret.
  cbv beta iota. rewrite Hnone. reflexivity.
Qed.

(** A name configured, no build on the server, a task found: it is
    launched under a progress notification, and the result is that of
    the wait. *)
Lemma tryRun_found w n t :
  configured h deployFsPath = Some n ->
  Js.truthy (Some n) = true ->
  serverSideBuild scmType = false ->
  searched h deployFsPath n = Some t ->
  tryRunPreDeployTask h deployFsPath scmType w
  = launched
      (waitForPreDeployTask h t deployFsPath
         (after (recording w "hasPreDeployTask" "true")
                [FetchTasks; WithProgress (runningMessage n); ExecuteTask t])).
Proof.
  unfold tryRunPreDeployTask, configured, preDeployTaskKey, serverSideBuild, searched.
  intros -> Htruthy Hskip Hsome. destruct n as [| c n]; [discriminate |].
  rewrite Hskip, localize_runningMessage.
  unfold withProgress, fetchTasks, bind, setProperty, perform, ret.
  cbv beta iota. rewrite Hsome. cbv beta iota.
  unfold after, recording. cbn [effects properties].
  rewrite <- !app_assoc. cbn [app]. unfold launched.
  destruct (waitForPreDeployTask h t deployFsPath _) as [[r | e |] w']; reflexivity.
Qed.

End ResolverFacts.

(** The four ways through [tryRunPreDeployTask]. *)
Lemma tryRun_cases `{PathUtils} h deployFsPath scmType w :
  (Js.truthy (configured h deployFsPath) = false /\
   tryRunPreDeployTask h deployFsPath scmType w
   = (Returned {| taskName := configured h deployFsPath;
                  exitCode := None;
                  failedToFindTask := false |},
      recording w "hasPreDeployTask" "false"))
  \/ (exists n,
        configured h deployFsPath = Some n /\ Js.truthy (Some n) = true /\
        serverSideBuild scmType = true /\
        tryRunPreDeployTask h deployFsPath scmType w
        = (Returned {| taskName := Some n; exitCode := None; failedToFindTask := false |},
           after (recording w "hasPreDeployTask" "true") [AppendLog (ignoringMessage n)]))
  \/ (exists n,
        configured h deployFsPath = Some n /\ Js.truthy (Some n) = true /\
        serverSideBuild scmType = false /\
        searched h deployFsPath n = None /\
        tryRunPreDeployTask h deployFsPath scmType w
        = (Returned {| taskName := Some n; exitCode := None; failedToFindTask := true |},
           after (recording w "hasPreDeployTask" "true") [FetchTasks]))
  \/ (exists n t,
        configured h deployFsPath = Some n /\ Js.truthy (Some n) = true /\
        serverSideBuild scmType = false /\
        searched h deployFsPath n = Some t /\
        tryRunPreDeployTask h deployFsPath scmType w
        = launched
            (waitForPreDeployTask h t deployFsPath
               (after (recording w "hasPreDeployTask" "true")
                      [FetchTasks; WithProgress (runningMessage n); ExecuteTask t]))).
Proof.
  destruct (Js.truthy (configured h deployFsPath)) eqn:Htruthy.
  - right. destruct (configured h deployFsPath) as [n |] eqn:Hcfg; [| discriminate].
    destruct (serverSideBuild scmType) eqn:Hskip.
    + left. exists n. eauto using tryRun_skipped.
    + right. destruct (searched h deployFsPath n) as [t |] eqn:Hsearch.
      * right. exists n, t. eauto 6 using tryRun_found.
      * left. exists n. eauto 6 using tryRun_not_found.
  - left. split; [reflexivity |]. now apply tryRun_unconfigured.
Qed.

Lemma launched_effects waited :
  effects (snd (launched waited)) = effects (snd waited).
Proof. destruct waited as [[r | e |] w]; reflexivity. Qed.

Lemma prompts_app l l' : prompts (l ++ l') = prompts l + prompts l'.
Proof. unfold prompts. now rewrite List.filter_app, length_app. Qed.

Lemma waitForPreDeployTask_prompts `{PathUtils} h t deployFsPath w :
  prompts (effects (snd (waitForPreDeployTask h t deployFsPath w)))
  = prompts (effects w).
Proof.
  unfold waitForPreDeployTask.
  set (s := fire _ _ _ _).
  assert (Hs : prompts (effects (snd s)) = prompts (effects w)).
  { unfold s. rewrite fire_prompts. simpl. rewrite prompts_app. cbn. lia. }
  destruct (promise (fst s)); exact Hs.
Qed.

(** Resolving, launching and waiting open no dialog. *)
Lemma tryRun_prompts `{PathUtils} h deployFsPath scmType w :
  prompts (effects (snd (tryRunPreDeployTask h deployFsPath scmType w)))
  = prompts (effects w).
Proof.
  destruct (tryRun_cases h deployFsPath scmType w)
    as [[_ ->] | [(n & _ & _ & _ & ->) | [(n & _ & _ & _ & _ & ->) | (n & t & _ & _ & _ & _ & ->)]]];
    simpl; rewrite ?prompts_app; cbn; try lia.
  pose proof (waitForPreDeployTask_prompts h t deployFsPath
    (after (recording w "hasPreDeployTask" "true")
           [FetchTasks; WithProgress (runningMessage n); ExecuteTask t])) as Hwait.
  unfold launched.
  destruct (waitForPreDeployTask h t deployFsPath _) as [[r | e |] w'];
    simpl in *; rewrite Hwait, prompts_app; cbn; lia.
Qed.

(** A returned result names a task unless it is one of the three results
    built before a task is launched. *)
Lemma tryRun_returned `{PathUtils} h deployFsPath scmType w r w' :
  tryRunPreDeployTask h deployFsPath scmType w = (Returned r, w') ->
  (Js.truthy (configured h deployFsPath) = false /\
   r = {| taskName := configured h deployFsPath; exitCode := None; failedToFindTask := false |})
  \/ (exists n, configured h deployFsPath = Some n /\ Js.truthy (Some n) = true /\
                serverSideBuild scmType = true /\
                r = {| taskName := Some n; exitCode := None; failedToFindTask := false |})
  \/ (exists n, configured h deployFsPath = Some n /\ Js.truthy (Some n) = true /\
                serverSideBuild scmType = false /\
                r = {| taskName := Some n; exitCode := None; failedToFindTask := true |})
  \/ (Js.truthy (configured h deployFsPath) = true /\
      serverSideBuild scmType = false /\ named r).
Proof.
  intros Hrun.
  destruct (tryRun_cases h deployFsPath scmType w)
    as [[Hf Heq] | [(n & Hc & Ht & Hs & Heq) | [(n & Hc & Ht & Hs & _ & Heq) | (n & t & Hc & Ht & Hs & _ & Heq)]]];
    rewrite Heq in Hrun.
  - left. inversion Hrun. auto.
  - right; left. inversion Hrun. eauto 6.
  - right; right; left. inversion Hrun. eauto 6.
  - right; right; right. rewrite Hc. repeat split; try assumption;
      unfold launched in Hrun;
      destruct (waitForPreDeployTask h t deployFsPath _) as [[r0 | e |] w0] eqn:Hwait;
      try discriminate; inversion Hrun; subst;
      now apply waitForPreDeployTask_named in Hwait as [? ?].
Qed.

(** ** The outcome handler *)

Lemma localize_taskFailedMessage (taskName : option string) :
  localize "taskFailed"
    ("Errors exist after running preDeployTask " ++ Js.quote ++ "{0}" ++ Js.quote
     ++ ". See task output for more info.") [taskName]
  = taskFailedMessage (match taskName with Some n => n | None => "undefined" end).
Proof. destruct taskName; reflexivity. Qed.

(** The dialog and what follows each answer. *)
Lemma handleFailedPreDeployTask_answers h r w :
  handleFailedPreDeployTask h r w
  = match picked h with
    | Some 0 =>
        (Returned tt,
         recording (after w [failurePrompt r]) "preDeployTaskResponse" "deployAnyway")
    | Some 1 =>
        (Thrown UserCancelledError,
         after (recording (after w [failurePrompt r]) "preDeployTaskResponse" "openSettings")
               [ExecuteCommand "workbench.action.openSettings"])
    | _ =>
        (Thrown UserCancelledError,
         recording (after w [failurePrompt r]) "preDeployTaskResponse" "cancel")
    end.
Proof.
  unfold handleFailedPreDeployTask. rewrite localize_taskFailedMessage.
  unfold showErrorMessage, bind, perform, ret, failurePrompt.
  destruct (picked h) as [[| [| [| i]]] |]; reflexivity.
Qed.

(** [runPreDeployTask] after a result of [tryRunPreDeployTask]. *)
Lemma runPreDeployTask_returned `{PathUtils} h deployFsPath scmType w r w1 :
  tryRunPreDeployTask h deployFsPath scmType w = (Returned r, w1) ->
  runPreDeployTask h deployFsPath scmType w
  = if failedToFindTask r then
      (Thrown (Error (failedToFindMessage h (taskName r))), w1)
    else if isDefined (exitCode r) && isNonZero (exitCode r) then
      handleFailedPreDeployTask h r w1
    else (Returned tt, w1).
Proof.
  intros Hrun. unfold runPreDeployTask, bind. rewrite Hrun.
  destruct (failedToFindTask r); [reflexivity |].
  destruct (isDefined (exitCode r) && isNonZero (exitCode r)); reflexivity.
Qed.


Lemma failing_exit_code (z : Z) :
  z <> 0%Z -> isDefined (Some z) && isNonZero (Some z) = true.
Proof. intros Hz. simpl. now apply negb_true_iff, Z.eqb_neq. Qed.

Lemma find_among {A} (f : A -> bool) (l : list A) (x : A) :
  In x l -> f x = true -> exists y, List.find f l = Some y.
Proof.
  intros Hin Hfx. destruct (List.find f l) as [y |] eqn:Hfind; [eauto |].
  pose proof (List.find_none f l Hfind x Hin). congruence.
Qed.

(** ** The properties of the specification *)

(** C5. For every deploy path and source-control mode, when no pre-deploy
    task name is configured, [tryRunPreDeployTask] returns the result with
    [taskName] undefined, [exitCode] undefined and [failedToFindTask] false,
    and it performs no effect on the host: the task registry is not called
    (no [fetchTasks], no [executeTask]). Only the telemetry property
    [hasPreDeployTask] is written. *)
Theorem unset_name_returns_at_once `{PathUtils} h deployFsPath scmType w :
  configured h deployFsPath = None ->
  tryRunPreDeployTask h deployFsPath scmType w
  = (Returned {| taskName := None; exitCode := None; failedToFindTask := false |},
     recording w "hasPreDeployTask" "false")
  /\ effects (snd (tryRunPreDeployTask h deployFsPath scmType w)) = effects w
  /\ registryCalls (effects (snd (tryRunPreDeployTask h deployFsPath scmType w)))
     = registryCalls (effects w).
Proof.
  intros Hcfg.
  assert (Hrun := tryRun_unconfigured h deployFsPath scmType w).
  rewrite Hcfg in Hrun. specialize (Hrun eq_refl).
  rewrite Hrun. repeat split.
Qed.

Lemma unset_name_returns_at_once_witness :
  tryRunPreDeployTask (hostOf None [build] [ended build (Some 0%Z)] None)
    "/proj" None world0
  = (Returned {| taskName := None; exitCode := None; failedToFindTask := false |},
     recording world0 "hasPreDeployTask" "false").
Proof.
  apply (unset_name_returns_at_once
           (hostOf None [build] [ended build (Some 0%Z)] None) "/proj" None world0).
  reflexivity.
Defined.

(** C9. When the configured name is the empty string, [tryRunPreDeployTask]
    behaves as when nothing is configured: it returns without any effect on
    the host, hence without a call to the task registry, with
    [failedToFindTask] false and [exitCode] undefined; but [taskName] is the
    empty string, not undefined. *)
Theorem empty_name_returns_at_once `{PathUtils} h deployFsPath scmType w :
  configured h deployFsPath = Some EmptyString ->
  tryRunPreDeployTask h deployFsPath scmType w
  = (Returned {| taskName := Some EmptyString; exitCode := None; failedToFindTask := false |},
     recording w "hasPreDeployTask" "false")
  /\ effects (snd (tryRunPreDeployTask h deployFsPath scmType w)) = effects w
  /\ registryCalls (effects (snd (tryRunPreDeployTask h deployFsPath scmType w)))
     = registryCalls (effects w).
Proof.
  intros Hcfg.
  assert (Hrun := tryRun_unconfigured h deployFsPath scmType w).
  rewrite Hcfg in Hrun. specialize (Hrun eq_refl).
  rewrite Hrun. repeat split.
Qed.

Lemma empty_name_returns_at_once_witness :
  tryRunPreDeployTask (hostOf (Some EmptyString) [build] [ended build (Some 0%Z)] None)
    "/proj" None world0
  = (Returned {| taskName := Some EmptyString; exitCode := None; failedToFindTask := false |},
     recording world0 "hasPreDeployTask" "false").
Proof.
  apply (empty_name_returns_at_once
           (hostOf (Some EmptyString) [build] [ended build (Some 0%Z)] None)
           "/proj" None world0).
  reflexivity.
Defined.

(** C6, as stated, fails: with LocalGit and no name configured, nothing is
    logged at all, so the effects are not one log line. *)
Lemma server_side_build_without_name_logs_nothing :
  effects (snd (tryRunPreDeployTask (hostOf None [build] [] None)
                  "/proj" (Some ScmType.LocalGit) world0)) = []
  /\ ~ (exists line,
          effects (snd (tryRunPreDeployTask (hostOf None [build] [] None)
                          "/proj" (Some ScmType.LocalGit) world0))
          = [AppendLog line]).
Proof.
  split; [reflexivity |]. intros [line Hline]. vm_compute in Hline. discriminate.
Qed.

(** C6, amended. For every configuration and for the source-control modes
    LocalGit and GitHub, no task is fetched or executed, and
    [tryRunPreDeployTask] returns with [exitCode] undefined and
    [failedToFindTask] false. The effects on the host are one informational
    log line when a non-empty name is configured, and none otherwise. *)
Theorem server_side_build_skips `{PathUtils} h deployFsPath scmType w :
  scmType = Some ScmType.LocalGit \/ scmType = Some ScmType.GitHub ->
  tryRunPreDeployTask h deployFsPath scmType w
  = (Returned {| taskName := configured h deployFsPath;
                 exitCode := None;
                 failedToFindTask := false |},
     after (recording w "hasPreDeployTask"
              (Js.String_of_bool (Js.truthy (configured h deployFsPath))))
           (skipLog (configured h deployFsPath)))
  /\ registryCalls (effects (snd (tryRunPreDeployTask h deployFsPath scmType w)))
     = registryCalls (effects w)
  /\ (Js.truthy (configured h deployFsPath) = true ->
      exists n, configured h deployFsPath = Some n
                /\ skipLog (configured h deployFsPath) = [AppendLog (ignoringMessage n)])
  /\ (Js.truthy (configured h deployFsPath) = false ->
      skipLog (configured h deployFsPath) = []).
Proof.
  intros Hscm.
  assert (Hskip : serverSideBuild scmType = true) by (destruct Hscm as [-> | ->]; reflexivity).
  assert (Hrun : tryRunPreDeployTask h deployFsPath scmType w
    = (Returned {| taskName := configured h deployFsPath;
                   exitCode := None;
                   failedToFindTask := false |},
       after (recording w "hasPreDeployTask"
                (Js.String_of_bool (Js.truthy (configured h deployFsPath))))
             (skipLog (configured h deployFsPath)))).
  { destruct (Js.truthy (configured h deployFsPath)) eqn:Htruthy.
    - destruct (configured h deployFsPath) as [n |] eqn:Hcfg; [| discriminate].
      rewrite (tryRun_skipped h deployFsPath scmType w n Hcfg Htruthy Hskip).
      destruct n; [discriminate | reflexivity].
    - rewrite (tryRun_unconfigured h deployFsPath scmType w Htruthy).
      unfold after, recording. simpl.
      destruct (configured h deployFsPath) as [[| c n] |]; try discriminate;
        simpl; now rewrite app_nil_r. }
  rewrite Hrun. split; [reflexivity |]. split.
  - simpl. unfold registryCalls. rewrite List.filter_app, length_app.
    destruct (configured h deployFsPath) as [[| c n] |]; simpl; lia.
  - split; intros Htruthy;
      destruct (configured h deployFsPath) as [[| c n] |]; try discriminate; eauto.
Qed.

Lemma server_side_build_skips_witness :
  tryRunPreDeployTask (hostOf (Some "build") [build] [ended build (Some 1%Z)] None)
    "/proj" (Some ScmType.GitHub) world0
  = (Returned {| taskName := Some "build"; exitCode := None; failedToFindTask := false |},
     after (recording world0 "hasPreDeployTask" "true")
           [AppendLog (ignoringMessage "build")]).
Proof.
  apply (server_side_build_skips
           (hostOf (Some "build") [build] [ended build (Some 1%Z)] None)
           "/proj" (Some ScmType.GitHub) world0).
  right. reflexivity.
Defined.







(** C3, as stated, fails: with a server-side build the registry is not
    searched, so a name that no task matches gives a result with
    [failedToFindTask] false, and [runPreDeployTask] returns normally; and
    so does the empty name, whatever the source-control mode. *)
Lemma unmatched_name_with_server_side_build :
  List.find (isTaskEqual "build" "/proj") [] = None
  /\ List.find (isTaskEqual (taskNameWithoutSource "build") "/proj") [] = None
  /\ fst (tryRunPreDeployTask (hostOf (Some "build") [] [] None)
            "/proj" (Some ScmType.LocalGit) world0)
     = Returned {| taskName := Some "build"; exitCode := None; failedToFindTask := false |}
  /\ fst (runPreDeployTask (hostOf (Some "build") [] [] None)
            "/proj" (Some ScmType.LocalGit) world0)
     = Returned tt
  /\ List.find (isTaskEqual EmptyString "/proj") [build] = None
  /\ List.find (isTaskEqual (taskNameWithoutSource EmptyString) "/proj") [build] = None
  /\ fst (tryRunPreDeployTask (hostOf (Some EmptyString) [build] [] None)
            "/proj" None world0)
     = Returned {| taskName := Some EmptyString; exitCode := None; failedToFindTask := false |}.
Proof. repeat split. Qed.

(** C3, amended. For every deploy path and every non-empty configured task
    name, when the source-control mode is neither LocalGit nor GitHub and
    neither the exact case-insensitive match nor the match on the name
    without its prefix finds a task with matching scope,
    [tryRunPreDeployTask] returns a result with [failedToFindTask] true, and
    [runPreDeployTask] throws an error whose message names the missing task
    and the setting to correct. *)
Theorem unmatched_name_fails_the_deploy `{PathUtils} h deployFsPath scmType w n :
  configured h deployFsPath = Some n ->
  Js.truthy (Some n) = true ->
  serverSideBuild scmType = false ->
  List.find (isTaskEqual n deployFsPath) (registeredTasks h) = None ->
  List.find (isTaskEqual (taskNameWithoutSource n) deployFsPath) (registeredTasks h) = None ->
  tryRunPreDeployTask h deployFsPath scmType w
  = (Returned {| taskName := Some n; exitCode := None; failedToFindTask := true |},
     after (recording w "hasPreDeployTask" "true") [FetchTasks])
  /\ runPreDeployTask h deployFsPath scmType w
     = (Thrown (Error
          ("Failed to find pre-deploy task " ++ Js.quote ++ n ++ Js.quote
           ++ ". Modify your tasks or the setting " ++ Js.quote
           ++ prefix h ++ ".preDeployTask" ++ Js.quote ++ ".")),
        after (recording w "hasPreDeployTask" "true") [FetchTasks]).
Proof.
  intros Hcfg Htruthy Hscm Hexact Hplain.
  assert (Hsearch : searched h deployFsPath n = None)
    by (unfold searched; now rewrite Hexact, Hplain).
  pose proof (tryRun_not_found h deployFsPath scmType w n Hcfg Htruthy Hscm Hsearch) as Hrun.
  split; [assumption |].
  now rewrite (runPreDeployTask_returned h deployFsPath scmType w _ _ Hrun).
Qed.

Lemma unmatched_name_fails_the_deploy_witness :
  runPreDeployTask (hostOf (Some "test") [lint; build] [] None) "/proj" None world0
  = (Thrown (Error
       ("Failed to find pre-deploy task " ++ Js.quote ++ "test" ++ Js.quote
        ++ ". Modify your tasks or the setting " ++ Js.quote
        ++ "appService.preDeployTask" ++ Js.quote ++ ".")),
     after (recording world0 "hasPreDeployTask" "true") [FetchTasks]).
Proof.
  apply (unmatched_name_fails_the_deploy
           (hostOf (Some "test") [lint; build] [] None) "/proj" None world0 "test");
    reflexivity.
Defined.

(** C4. During the wait, let [e] be the first event the listener reacts to
    (no earlier event is for the launched task or is a failure in the scope
    of the deploy path). If [e] is for a task other than the launched one,
    whose scope equals or is an ancestor of the deploy path, and its exit
    code is not zero, then the wait resolves with the name and the exit code
    of that task, and the listener is disposed of at that point: it is no
    longer registered and hears none of the later events. *)
Theorem failing_dependency_ends_the_wait `{PathUtils}
    h preDeployTask deployFsPath w pre e later z :
  processEnds h = pre ++ e :: later ->
  Forall (fun e' => reacts preDeployTask deployFsPath e' = false) pre ->
  sameTask (task (execution e)) preDeployTask = false ->
  isScopeEqual (task (execution e)) deployFsPath = true ->
  processExitCode e = Some z ->
  z <> 0%Z ->
  waitForPreDeployTask h preDeployTask deployFsPath w
  = (Returned {| taskName := Some (name (task (execution e)));
                 exitCode := Some z;
                 failedToFindTask := false |},
     after w [OnDidEndTaskProcess; Dispose])
  /\ fire preDeployTask deployFsPath (processEnds h)
       ({| listening := true; promise := None |}, after w [OnDidEndTaskProcess])
     = ({| listening := false;
           promise := Some {| taskName := Some (name (task (execution e)));
                              exitCode := Some z;
                              failedToFindTask := false |} |},
        after (after w [OnDidEndTaskProcess]) [Dispose]).
Proof.
  intros Hends Hpre Hother Hscope Hcode Hz.
  assert (Hfail : failedInScope deployFsPath e = true).
  { unfold failedInScope. rewrite Hscope, Hcode. simpl.
    now apply negb_true_iff, Z.eqb_neq. }
  assert (He : reacts preDeployTask deployFsPath e = true)
    by (unfold reacts; now rewrite Hfail).
  assert (Hdisposals : disposals preDeployTask deployFsPath e = [Dispose])
    by (unfold disposals; now rewrite Hfail, Hother).
  assert (Hresult : resultOf e
                    = {| taskName := Some (name (task (execution e)));
                         exitCode := Some z;
                         failedToFindTask := false |})
    by (unfold resultOf; now rewrite Hcode).
  split.
  - rewrite (waitForPreDeployTask_first preDeployTask deployFsPath h pre e later w
               Hends Hpre He).
    now rewrite Hdisposals, Hresult.
  - rewrite Hends, (fire_first preDeployTask deployFsPath pre e later _ Hpre He).
    now rewrite Hdisposals, Hresult.
Qed.

Lemma failing_dependency_ends_the_wait_witness :
  waitForPreDeployTask
    (hostOf (Some "build") [build]
            [ended elsewhere (Some 1%Z); ended lint (Some 0%Z);
             ended lint (Some 2%Z); ended build (Some 0%Z)] None)
    build "/proj/sub" world0
  = (Returned {| taskName := Some "lint"; exitCode := Some 2%Z; failedToFindTask := false |},
     after world0 [OnDidEndTaskProcess; Dispose]).
Proof.
  apply (failing_dependency_ends_the_wait
           (hostOf (Some "build") [build]
                   [ended elsewhere (Some 1%Z); ended lint (Some 0%Z);
                    ended lint (Some 2%Z); ended build (Some 0%Z)] None)
           build "/proj/sub" world0
           [ended elsewhere (Some 1%Z); ended lint (Some 0%Z)]
           (ended lint (Some 2%Z))
           [ended build (Some 0%Z)] 2%Z).
  - reflexivity.
  - repeat constructor.
  - reflexivity.
  - reflexivity.
  - reflexivity.
  - discriminate.
Defined.

(** C7. When the result of the pre-deploy task has a defined exit code
    other than zero, a modal dialog names the task and offers exactly the
    two choices Deploy Anyway and Open Settings. With Deploy Anyway the
    choice [deployAnyway] is recorded and [runPreDeployTask] returns
    normally; with Open Settings the choice is recorded, the settings are
    opened exactly once and a user-cancellation error is thrown; when the
    dialog is closed, [cancel] is recorded and a user-cancellation error is
    thrown. *)
Theorem failed_task_asks_the_user `{PathUtils} h deployFsPath scmType w r w1 z :
  tryRunPreDeployTask h deployFsPath scmType w = (Returned r, w1) ->
  exitCode r = Some z ->
  z <> 0%Z ->
  exists n,
    taskName r = Some n
    /\ map title [deployAnyway; openSettings] = ["Deploy Anyway"; "Open Settings"]
    /\ let asked :=
         after w1 [ShowErrorMessage (taskFailedMessage n) true [deployAnyway; openSettings]] in
       runPreDeployTask h deployFsPath scmType w
       = match picked h with
         | Some 0 =>
             (Returned tt, recording asked "preDeployTaskResponse" "deployAnyway")
         | Some 1 =>
             (Thrown UserCancelledError,
              after (recording asked "preDeployTaskResponse" "openSettings")
                    [ExecuteCommand "workbench.action.openSettings"])
         | _ =>
             (Thrown UserCancelledError, recording asked "preDeployTaskResponse" "cancel")
         end.
Proof.
  intros Hrun Hcode Hz.
  assert (Hnamed : named r).
  { destruct (tryRun_returned h deployFsPath scmType w r w1 Hrun)
      as [[_ ->] | [(n & _ & _ & _ & ->) | [(n & _ & _ & _ & ->) | (_ & _ & Hn)]]];
      try discriminate. exact Hn. }
  destruct Hnamed as [Hfound Hname].
  destruct (taskName r) as [n |] eqn:Hn; [| congruence].
  exists n. split; [reflexivity |]. split; [reflexivity |].
  cbv zeta.
  rewrite (runPreDeployTask_returned h deployFsPath scmType w r w1 Hrun).
  rewrite Hfound, Hcode, (failing_exit_code z Hz).
  rewrite handleFailedPreDeployTask_answers. unfold failurePrompt. rewrite Hn.
  reflexivity.
Qed.

Lemma failed_task_asks_the_user_witness :
  exists n,
    n = "build"
    /\ fst (runPreDeployTask
              (hostOf (Some "build") [build] [ended build (Some 1%Z)] (Some 0))
              "/proj" None world0) = Returned tt
    /\ properties (snd (runPreDeployTask
                          (hostOf (Some "build") [build] [ended build (Some 1%Z)] (Some 0))
                          "/proj" None world0)) !! "preDeployTaskResponse"
       = Some "deployAnyway".
Proof.
  pose proof (failed_task_asks_the_user
                (hostOf (Some "build") [build] [ended build (Some 1%Z)] (Some 0))
                "/proj" None world0
                {| taskName := Some "build"; exitCode := Some 1%Z; failedToFindTask := false |}
                (snd (tryRunPreDeployTask
                        (hostOf (Some "build") [build] [ended build (Some 1%Z)] (Some 0))
                        "/proj" None world0))
                1%Z) as Hw.
  specialize (Hw ltac:(vm_compute; reflexivity) ltac:(reflexivity) ltac:(discriminate)).
  destruct Hw as (n & Hn & _ & Hrun).
  exists n. split; [simpl in Hn; congruence |].
  cbv zeta in Hrun. rewrite Hrun. simpl. split; [reflexivity |].
  apply lookup_insert_eq.
Defined.



(** C10. During the wait, let [e] be the first event the listener reacts
    to. If [e] is for a task whose scope equals or is an ancestor of the
    deploy path and it has no exit code, the first test of the listener
    succeeds (an undefined exit code is not 0) and the wait resolves with
    [exitCode] undefined; [runPreDeployTask] then returns normally and opens
    no dialog, because only a defined exit code other than 0 does. *)
Theorem missing_exit_code_passes `{PathUtils}
    h deployFsPath scmType w n t pre e later :
  configured h deployFsPath = Some n ->
  Js.truthy (Some n) = true ->
  serverSideBuild scmType = false ->
  searched h deployFsPath n = Some t ->
  processEnds h = pre ++ e :: later ->
  Forall (fun e' => reacts t deployFsPath e' = false) pre ->
  isScopeEqual (task (execution e)) deployFsPath = true ->
  processExitCode e = None ->
  let started :=
    after (recording w "hasPreDeployTask" "true")
          [FetchTasks; WithProgress (runningMessage n); ExecuteTask t] in
  let r := {| taskName := Some (name (task (execution e)));
              exitCode := None;
              failedToFindTask := false |} in
  let waited := after started (OnDidEndTaskProcess :: disposals t deployFsPath e) in
  let w1 := recording waited "preDeployTaskExitCode" "undefined" in
  failedInScope deployFsPath e = true
  /\ waitForPreDeployTask h t deployFsPath started = (Returned r, waited)
  /\ tryRunPreDeployTask h deployFsPath scmType w = (Returned r, w1)
  /\ runPreDeployTask h deployFsPath scmType w = (Returned tt, w1)
  /\ prompts (effects w1) = prompts (effects w).
Proof.
  intros Hcfg Htruthy Hscm Hsearch Hends Hpre Hscope Hcode started r waited w1.
  assert (Hfail : failedInScope deployFsPath e = true)
    by (unfold failedInScope; now rewrite Hscope, Hcode).
  assert (He : reacts t deployFsPath e = true) by (unfold reacts; now rewrite Hfail).
  assert (Hwait : waitForPreDeployTask h t deployFsPath started = (Returned r, waited)).
  { rewrite (waitForPreDeployTask_first t deployFsPath h pre e later _ Hends Hpre He).
    unfold resultOf, r. now rewrite Hcode. }
  assert (Hrun : tryRunPreDeployTask h deployFsPath scmType w = (Returned r, w1)).
  { rewrite (tryRun_found h deployFsPath scmType w n t Hcfg Htruthy Hscm Hsearch).
    fold started. now rewrite Hwait. }
  repeat split; try assumption.
  - now rewrite (runPreDeployTask_returned h deployFsPath scmType w r w1 Hrun).
  - pose proof (tryRun_prompts h deployFsPath scmType w) as Hprompts.
    now rewrite Hrun in Hprompts.
Qed.

Lemma missing_exit_code_passes_witness :
  runPreDeployTask
    (hostOf (Some "build") [build] [ended elsewhere None; ended lint None; ended build (Some 1%Z)]
            (Some 1))
    "/proj/sub" None world0
  = (Returned tt,
     recording
       (after (after (recording world0 "hasPreDeployTask" "true")
                     [FetchTasks; WithProgress (runningMessage "build"); ExecuteTask build])
              [OnDidEndTaskProcess; Dispose])
       "preDeployTaskExitCode" "undefined").
Proof.
  pose proof (missing_exit_code_passes
                (hostOf (Some "build") [build]
                        [ended elsewhere None; ended lint None; ended build (Some 1%Z)]
                        (Some 1))
                "/proj/sub" None world0 "build" build
                [ended elsewhere None] (ended lint None) [ended build (Some 1%Z)]) as Hw.
  specialize (Hw ltac:(reflexivity) ltac:(reflexivity) ltac:(reflexivity)
                 ltac:(reflexivity) ltac:(reflexivity) ltac:(repeat constructor)
                 ltac:(reflexivity) ltac:(reflexivity)).
  cbv zeta in Hw. destruct Hw as (_ & _ & _ & Hrun & _). exact Hrun.
Defined.

(** ** Further properties: names and scopes *)

Lemma toLowerCaseUnit_idempotent c :
  Js.toLowerCaseUnit (Js.toLowerCaseUnit c) = Js.toLowerCaseUnit c.
Proof. destruct c as [[] [] [] [] [] [] [] []]; reflexivity. Qed.

Lemma toLowerCase_idempotent s :
  Js.toLowerCase (Js.toLowerCase s) = Js.toLowerCase s.
Proof.
  induction s as [| c s IH]; simpl; [reflexivity |].
  now rewrite toLowerCaseUnit_idempotent, IH.
Qed.

(** The two tests on a task differ by the comparison of the names only. *)
Lemma isTaskEqual_spec `{PathUtils} n p t :
  isTaskEqual n p t
  = String.eqb (Js.toLowerCase n) (Js.toLowerCase (name t)) && isScopeEqual t p.
Proof.
  unfold isTaskEqual, isScopeEqual.
  destruct (String.eqb _ _); simpl; [| reflexivity].
  destruct (scope t); reflexivity.
Qed.

(** X1. The match of a task against a name does not depend on the case of
    letters: putting the expected name, or the name of the task, in lower
    case leaves the answer of [isTaskEqual] unchanged. *)
Theorem isTaskEqual_ignores_case `{PathUtils} n p t :
  isTaskEqual (Js.toLowerCase n) p t = isTaskEqual n p t
  /\ isTaskEqual n p (lowered t) = isTaskEqual n p t.
Proof.
  rewrite !isTaskEqual_spec. unfold lowered, isScopeEqual. simpl.
  now rewrite !toLowerCase_idempotent.
Qed.

(** X2. [isTaskEqual] accepts a task exactly when the names agree up to
    case and [isScopeEqual] accepts the task for the same path: a task that
    the resolver finds passes the scope test of the listener. *)
Theorem isTaskEqual_iff_name_and_scope `{PathUtils} n p t :
  isTaskEqual n p t = true
  <-> Js.toLowerCase n = Js.toLowerCase (name t) /\ isScopeEqual t p = true.
Proof.
  rewrite isTaskEqual_spec, andb_true_iff, String.eqb_eq. reflexivity.
Qed.

(** X3. A task whose scope is not a workspace folder with a [uri] (a
    global or workspace-wide task, or a task without scope) is never matched
    by [isTaskEqual] nor by [isScopeEqual], whatever the paths; so its
    process-end event ends the wait only when it is the launched task. *)
Theorem task_without_folder_is_out_of_scope `{PathUtils} n p launchedTask e :
  scopeUri (scope (task (execution e))) = None ->
  isTaskEqual n p (task (execution e)) = false
  /\ isScopeEqual (task (execution e)) p = false
  /\ reacts launchedTask p e = sameTask (task (execution e)) launchedTask.
Proof.
  intros Huri.
  assert (Hscope : isScopeEqual (task (execution e)) p = false).
  { unfold isScopeEqual. rewrite Huri. now destruct (isObject _). }
  repeat split.
  - rewrite isTaskEqual_spec, Hscope. apply andb_false_r.
  - assumption.
  - unfold reacts, failedInScope. now rewrite Hscope.
Qed.

Lemma task_without_folder_is_out_of_scope_witness :
  isTaskEqual "build" "/proj" globalBuild = false
  /\ reacts build "/proj" (ended globalBuild (Some 1%Z)) = false.
Proof.
  pose proof (task_without_folder_is_out_of_scope "build" "/proj" build
                (ended globalBuild (Some 1%Z))) as Hw.
  specialize (Hw ltac:(reflexivity)).
  destruct Hw as (Hname & _ & Hreacts). split; [exact Hname |].
  rewrite Hreacts. reflexivity.
Defined.

Lemma find_first {A} (f : A -> bool) (l : list A) (x : A) :
  List.find f l = Some x ->
  f x = true /\
  exists before later, l = before ++ x :: later /\ Forall (fun y => f y = false) before.
Proof.
  induction l as [| y l IH]; simpl; [discriminate |].
  destruct (f y) eqn:Hy.
  - intros [= <-]. split; [assumption |]. exists [], l. split; [reflexivity | constructor].
  - intros Hfind. destruct (IH Hfind) as (Hx & before & later & -> & Hbefore).
    split; [assumption |]. exists (y :: before), later. split; [reflexivity |].
    now constructor.
Qed.

(** X4. An exact match (up to case) has priority over a match on the name
    without its prefix, wherever the tasks stand in the list: when some
    registered task matches the configured name itself, the task searched
    for is the first registered task that does. *)
Theorem exact_match_wins `{PathUtils} h p n t :
  In t (registeredTasks h) ->
  isTaskEqual n p t = true ->
  exists first before later,
    searched h p n = Some first
    /\ isTaskEqual n p first = true
    /\ registeredTasks h = before ++ first :: later
    /\ Forall (fun y => isTaskEqual n p y = false) before.
Proof.
  intros Hin Hmatch.
  destruct (find_among _ _ t Hin Hmatch) as [first Hfind].
  destruct (find_first _ _ _ Hfind) as (Hfirst & before & later & Hsplit & Hbefore).
  exists first, before, later. unfold searched. rewrite Hfind. auto.
Qed.

Lemma exact_match_wins_witness :
  exists first before later,
    searched (hostOf (Some "func: build") [build; funcBuild] [] None) "/proj" "func: build"
    = Some first
    /\ isTaskEqual "func: build" "/proj" first = true
    /\ [build; funcBuild] = before ++ first :: later
    /\ Forall (fun y => isTaskEqual "func: build" "/proj" y = false) before.
Proof.
  apply (exact_match_wins (hostOf (Some "func: build") [build; funcBuild] [] None)
           "/proj" "func: build" funcBuild).
  - simpl. auto.
  - reflexivity.
Defined.

Lemma afterFirstColon_app source rest :
  Js.afterFirstColon source = None ->
  Js.afterFirstColon (source ++ String ":"%char rest) = Some rest.
Proof.
  induction source as [| c source IH]; simpl; [reflexivity |].
  destruct (Ascii.eqb c ":"%char); [discriminate | assumption].
Qed.

Lemma skipWhiteSpace_app spaces rest :
  allWhiteSpace spaces = true ->
  beginsWithWhiteSpace rest = false ->
  Js.skipWhiteSpace (spaces ++ rest) = rest.
Proof.
  intros Hspaces Hrest. induction spaces as [| c spaces IH]; simpl in *.
  - destruct rest as [| c rest]; [reflexivity |]. simpl in *. now rewrite Hrest.
  - apply andb_true_iff in Hspaces as [-> Hspaces]. auto.
Qed.

(** X5. Removing the source of a task name gives back the name: for a
    source without colon, any white space after the colon and a name that
    does not begin with white space, [source: name] becomes [name]; and a
    name without colon is left as it is. *)
Theorem taskNameWithoutSource_strips_the_source source spaces taskName :
  Js.afterFirstColon source = None ->
  allWhiteSpace spaces = true ->
  beginsWithWhiteSpace taskName = false ->
  taskNameWithoutSource (source ++ String ":"%char (spaces ++ taskName)) = taskName
  /\ taskNameWithoutSource source = source.
Proof.
  intros Hsource Hspaces Hname. unfold taskNameWithoutSource.
  rewrite (afterFirstColon_app source _ Hsource), Hsource.
  split; [now apply skipWhiteSpace_app | reflexivity].
Qed.

Lemma taskNameWithoutSource_strips_the_source_witness :
  taskNameWithoutSource ("npm" ++ String ":"%char ("  " ++ "run build: all"))
  = "run build: all".
Proof.
  apply (taskNameWithoutSource_strips_the_source "npm" "  " "run build: all");
    reflexivity.
Defined.

(** ** Further properties: the wait *)

Lemma first_or_none {A} (f : A -> bool) (l : list A) :
  Forall (fun x => f x = false) l
  \/ exists pre x later,
       l = pre ++ x :: later /\ Forall (fun y => f y = false) pre /\ f x = true.
Proof.
  induction l as [| y l IH]; [left; constructor |].
  destruct (f y) eqn:Hy.
  - right. exists [], y, l. repeat split; [constructor | assumption].
  - destruct IH as [Hall | (pre & x & later & -> & Hpre & Hx)].
    + left. now constructor.
    + right. exists (y :: pre), x, later. repeat split; [now constructor | assumption].
Qed.

(** The two ways the wait can go. *)
Lemma waitForPreDeployTask_cases `{PathUtils} h t p w :
  (Forall (fun e => reacts t p e = false) (processEnds h)
   /\ waitForPreDeployTask h t p w = (Pending, after w [OnDidEndTaskProcess]))
  \/ (exists pre e later,
        processEnds h = pre ++ e :: later
        /\ Forall (fun e' => reacts t p e' = false) pre
        /\ reacts t p e = true
        /\ waitForPreDeployTask h t p w
           = (Returned (resultOf e), after w (OnDidEndTaskProcess :: disposals t p e))).
Proof.
  destruct (first_or_none (reacts t p) (processEnds h))
    as [Hall | (pre & e & later & Hends & Hpre & He)].
  - left. split; [assumption |]. unfold waitForPreDeployTask.
    pose proof (fire_skips t p (processEnds h) []
      ({| listening := true; promise := None |},
       {| effects := effects w ++ [OnDidEndTaskProcess]; properties := properties w |})
      Hall) as Hskip.
    rewrite app_nil_r in Hskip. rewrite Hskip. reflexivity.
  - right. exists pre, e, later. repeat split; try assumption.
    exact (waitForPreDeployTask_first t p h pre e later w Hends Hpre He).
Qed.

(** X6. The wait has no time limit: it stays pending exactly when none of
    the process-end events is for the launched task or is a failure in the
    scope of the deploy path; the listener is then registered and never
    disposed of. *)
Theorem wait_stays_pending_iff `{PathUtils} h t p w :
  (fst (waitForPreDeployTask h t p w) = Pending
   <-> Forall (fun e => reacts t p e = false) (processEnds h))
  /\ (fst (waitForPreDeployTask h t p w) = Pending ->
      snd (waitForPreDeployTask h t p w) = after w [OnDidEndTaskProcess]).
Proof.
  destruct (waitForPreDeployTask_cases h t p w)
    as [[Hall ->] | (pre & e & later & Hends & Hpre & He & ->)]; simpl.
  - repeat split; auto.
  - repeat split; try discriminate.
    intros Hall. rewrite Hends in Hall.
    apply Forall_app in Hall as [_ Hall]. inversion Hall; congruence.
Qed.

(** X7. When the wait returns, its result is made of the first event the
    listener reacts to: the name of the task of that event (not the name
    configured) and its exit code, with [failedToFindTask] false; the
    listener was disposed of on that event. *)
Theorem wait_returns_the_first_event `{PathUtils} h t p w r w' :
  waitForPreDeployTask h t p w = (Returned r, w') ->
  exists pre e later,
    processEnds h = pre ++ e :: later
    /\ Forall (fun e' => reacts t p e' = false) pre
    /\ reacts t p e = true
    /\ r = {| taskName := Some (name (task (execution e)));
              exitCode := processExitCode e;
              failedToFindTask := false |}
    /\ w' = after w (OnDidEndTaskProcess :: disposals t p e)
    /\ In Dispose (disposals t p e).
Proof.
  intros Hwait.
  destruct (waitForPreDeployTask_cases h t p w)
    as [[_ Heq] | (pre & e & later & Hends & Hpre & He & Heq)];
    rewrite Heq in Hwait; [discriminate |].
  inversion Hwait; subst. exists pre, e, later. repeat split; try assumption.
  unfold reacts in He. unfold disposals.
  destruct (failedInScope p e); simpl; [auto |].
  simpl in He. rewrite He. simpl. auto.
Qed.

Lemma wait_returns_the_first_event_witness :
  exists pre e later,
    [ended elsewhere (Some 1%Z); ended lint (Some 0%Z); ended build (Some 3%Z); ended lint (Some 2%Z)]
    = pre ++ e :: later
    /\ {| taskName := Some "build"; exitCode := Some 3%Z; failedToFindTask := false |}
       = {| taskName := Some (name (task (execution e)));
            exitCode := processExitCode e;
            failedToFindTask := false |}.
Proof.
  pose proof (wait_returns_the_first_event
                (hostOf (Some "build") [build]
                   [ended elsewhere (Some 1%Z); ended lint (Some 0%Z);
                    ended build (Some 3%Z); ended lint (Some 2%Z)] None)
                build "/proj" world0
                {| taskName := Some "build"; exitCode := Some 3%Z; failedToFindTask := false |}
                (after world0 [OnDidEndTaskProcess; Dispose; Dispose])) as Hw.
  specialize (Hw ltac:(reflexivity)).
  destruct Hw as (pre & e & later & Hends & _ & _ & Hr & _).
  exists pre, e, later. split; [exact Hends | exact Hr].
Defined.

(** X8. When the first event the listener reacts to is the failure of the
    launched task itself, in the scope of the deploy path, both tests of the
    listener succeed: [dispose] is called twice, and the promise keeps its
    first resolution, the name and the exit code of that event. *)
Theorem own_failure_disposes_twice `{PathUtils} h t p w pre e later :
  processEnds h = pre ++ e :: later ->
  Forall (fun e' => reacts t p e' = false) pre ->
  sameTask (task (execution e)) t = true ->
  isScopeEqual (task (execution e)) p = true ->
  isNonZero (processExitCode e) = true ->
  waitForPreDeployTask h t p w
  = (Returned {| taskName := Some (name (task (execution e)));
                 exitCode := processExitCode e;
                 failedToFindTask := false |},
     after w [OnDidEndTaskProcess; Dispose; Dispose]).
Proof.
  intros Hends Hpre Hsame Hscope Hcode.
  assert (Hfail : failedInScope p e = true)
    by (unfold failedInScope; now rewrite Hscope, Hcode).
  assert (He : reacts t p e = true) by (unfold reacts; now rewrite Hfail).
  rewrite (waitForPreDeployTask_first t p h pre e later w Hends Hpre He).
  unfold disposals. now rewrite Hfail, Hsame.
Qed.

Lemma own_failure_disposes_twice_witness :
  waitForPreDeployTask
    (hostOf (Some "build") [build] [ended lint (Some 0%Z); ended build None] None)
    build "/proj" world0
  = (Returned {| taskName := Some "build"; exitCode := None; failedToFindTask := false |},
     after world0 [OnDidEndTaskProcess; Dispose; Dispose]).
Proof.
  apply (own_failure_disposes_twice
           (hostOf (Some "build") [build] [ended lint (Some 0%Z); ended build None] None)
           build "/proj" world0 [ended lint (Some 0%Z)] (ended build None) []).
  - reflexivity.
  - repeat constructor.
  - reflexivity.
  - reflexivity.
  - reflexivity.
Defined.

(** ** Further properties: telemetry *)

Lemma waitForPreDeployTask_properties `{PathUtils} h t p w :
  properties (snd (waitForPreDeployTask h t p w)) = properties w.
Proof.
  destruct (waitForPreDeployTask_cases h t p w)
    as [[_ ->] | (pre & e & later & _ & _ & _ & ->)]; reflexivity.
Qed.

(** What [tryRunPreDeployTask] writes in the telemetry properties. *)
Lemma tryRun_properties `{PathUtils} h p scm w :
  let has := Js.String_of_bool (Js.truthy (configured h p)) in
  properties (snd (tryRunPreDeployTask h p scm w))
  = <["hasPreDeployTask" := has]> (properties w)
  \/ exists v,
       properties (snd (tryRunPreDeployTask h p scm w))
       = <["preDeployTaskExitCode" := v]> (<["hasPreDeployTask" := has]> (properties w)).
Proof.
  cbv zeta.
  destruct (tryRun_cases h p scm w)
    as [[Hf ->] | [(n & Hc & Ht & _ & ->) | [(n & Hc & Ht & _ & _ & ->) | (n & t & Hc & Ht & _ & _ & ->)]]];
    try rewrite Hf; try rewrite Hc, Ht; simpl; auto.
  pose proof (waitForPreDeployTask_properties h t p
    (after (recording w "hasPreDeployTask" "true")
           [FetchTasks; WithProgress (runningMessage n); ExecuteTask t])) as Hwait.
  unfold launched.
  destruct (waitForPreDeployTask h t p _) as [[r | e |] w']; simpl in *; rewrite Hwait; eauto.
Qed.

Lemma runPreDeployTask_pending `{PathUtils} h p scm w w1 :
  tryRunPreDeployTask h p scm w = (Pending, w1) ->
  runPreDeployTask h p scm w = (Pending, w1).
Proof. intros Hrun. unfold runPreDeployTask, bind. now rewrite Hrun. Qed.

(** [tryRunPreDeployTask] has no [throw] of its own: with a host that
    answers, it does not end in an exception. *)
Lemma tryRun_never_throws `{PathUtils} h p scm w e w1 :
  tryRunPreDeployTask h p scm w <> (Thrown e, w1).
Proof.
  destruct (tryRun_cases h p scm w)
    as [[_ ->] | [(n & _ & _ & _ & ->) | [(n & _ & _ & _ & _ & ->) | (n & t & _ & _ & _ & _ & ->)]]];
    try discriminate.
  unfold launched.
  destruct (waitForPreDeployTask_cases h t p
    (after (recording w "hasPreDeployTask" "true")
           [FetchTasks; WithProgress (runningMessage n); ExecuteTask t]))
    as [[_ ->] | (pre & ev & later & _ & _ & _ & ->)]; discriminate.
Qed.

(** What [runPreDeployTask] writes on top of [tryRunPreDeployTask]. *)
Lemma runPreDeployTask_properties `{PathUtils} h p scm w :
  properties (snd (runPreDeployTask h p scm w))
  = properties (snd (tryRunPreDeployTask h p scm w))
  \/ exists v,
       properties (snd (runPreDeployTask h p scm w))
       = <["preDeployTaskResponse" := v]> (properties (snd (tryRunPreDeployTask h p scm w))).
Proof.
  destruct (tryRunPreDeployTask h p scm w) as [[r | e |] w1] eqn:Hrun.
  - rewrite (runPreDeployTask_returned h p scm w r w1 Hrun).
    destruct (failedToFindTask r); [now left |].
    destruct (isDefined (exitCode r) && isNonZero (exitCode r)); [| now left].
    rewrite handleFailedPreDeployTask_answers.
    destruct (picked h) as [[| [| i]] |]; simpl; eauto.
  - now apply tryRun_never_throws in Hrun.
  - rewrite (runPreDeployTask_pending h p scm w w1 Hrun). now left.
Qed.

(** X9. Whatever the outcome of [runPreDeployTask] (return, error,
    cancellation, or a wait that never ends), the telemetry property
    [hasPreDeployTask] then says whether a non-empty name is configured. *)
Theorem hasPreDeployTask_is_recorded `{PathUtils} h p scm w :
  properties (snd (runPreDeployTask h p scm w)) !! "hasPreDeployTask"
  = Some (Js.String_of_bool (Js.truthy (configured h p)))
  /\ properties (snd (tryRunPreDeployTask h p scm w)) !! "hasPreDeployTask"
     = Some (Js.String_of_bool (Js.truthy (configured h p))).
Proof.
  assert (Htry : properties (snd (tryRunPreDeployTask h p scm w)) !! "hasPreDeployTask"
                 = Some (Js.String_of_bool (Js.truthy (configured h p)))).
  { destruct (tryRun_properties h p scm w) as [-> | [v ->]].
    - apply lookup_insert_eq.
    - rewrite lookup_insert_ne by discriminate. apply lookup_insert_eq. }
  split; [| assumption].
  destruct (runPreDeployTask_properties h p scm w) as [-> | [v ->]]; [assumption |].
  now rewrite lookup_insert_ne by discriminate.
Qed.

(** X10. [runPreDeployTask] writes no telemetry property other than
    [hasPreDeployTask], [preDeployTaskExitCode] and [preDeployTaskResponse]:
    every other property is as it was before the call. *)
Theorem other_properties_are_kept `{PathUtils} h p scm w key :
  written key = false ->
  properties (snd (runPreDeployTask h p scm w)) !! key = properties w !! key.
Proof.
  unfold written. intros Hkey.
  apply orb_false_iff in Hkey as [Hkey Hresponse].
  apply orb_false_iff in Hkey as [Hhas Hcode].
  apply String.eqb_neq in Hhas, Hcode, Hresponse.
  assert (Htry : properties (snd (tryRunPreDeployTask h p scm w)) !! key = properties w !! key).
  { destruct (tryRun_properties h p scm w) as [-> | [v ->]];
      rewrite ?lookup_insert_ne by congruence; reflexivity. }
  destruct (runPreDeployTask_properties h p scm w) as [-> | [v ->]];
    rewrite ?lookup_insert_ne by congruence; assumption.
Qed.

Lemma other_properties_are_kept_witness :
  properties
    (snd (runPreDeployTask
            (hostOf (Some "build") [build] [ended build (Some 1%Z)] None) "/proj" None
            {| effects := []; properties := {["deployMethod" := "zip"]} |}))
  !! "deployMethod"
  = Some "zip".
Proof.
  rewrite (other_properties_are_kept
             (hostOf (Some "build") [build] [ended build (Some 1%Z)] None) "/proj" None
             {| effects := []; properties := {["deployMethod" := "zip"]} |} "deployMethod").
  - reflexivity.
  - reflexivity.
Defined.

(** X11. When [tryRunPreDeployTask] returns after a task was launched, the
    telemetry property [preDeployTaskExitCode] holds the exit code of the
    result as a string ([undefined] when there is none); when it returns
    without launching (nothing configured, server-side build, task not
    found), that property is left as it was. *)
Theorem exit_code_is_recorded `{PathUtils} h p scm w r w1 :
  tryRunPreDeployTask h p scm w = (Returned r, w1) ->
  (Js.truthy (configured h p) = true ->
   serverSideBuild scm = false ->
   failedToFindTask r = false ->
   properties w1 !! "preDeployTaskExitCode" = Some (Js.String_of_number (exitCode r)))
  /\ (Js.truthy (configured h p) = false
      \/ serverSideBuild scm = true
      \/ failedToFindTask r = true ->
      properties w1 !! "preDeployTaskExitCode" = properties w !! "preDeployTaskExitCode").
Proof.
  intros Hrun.
  destruct (tryRun_cases h p scm w)
    as [[Hf Heq] | [(n & Hc & Ht & Hs & Heq) | [(n & Hc & Ht & Hs & _ & Heq) | (n & t & Hc & Ht & Hs & _ & Heq)]]];
    rewrite Heq in Hrun.
  - inversion Hrun; subst. split; [congruence |]. intros _. now simpl; rewrite lookup_insert_ne.
  - inversion Hrun; subst. split; [congruence |]. intros _. now simpl; rewrite lookup_insert_ne.
  - inversion Hrun; subst. split; [simpl; congruence |]. intros _.
    now simpl; rewrite lookup_insert_ne.
  - unfold launched in Hrun.
    destruct (waitForPreDeployTask h t p _) as [[r0 | e |] w0] eqn:Hwait; try discriminate.
    inversion Hrun; subst. split.
    + intros _ _ _. simpl. apply lookup_insert_eq.
    + apply waitForPreDeployTask_named in Hwait as [Hfound _].
      rewrite Hc, Ht, Hs, Hfound. intros [? | [? | ?]]; discriminate.
Qed.

Lemma exit_code_is_recorded_witness :
  properties
    (snd (tryRunPreDeployTask
            (hostOf (Some "build") [build] [ended build None] None) "/proj" None world0))
  !! "preDeployTaskExitCode"
  = Some "undefined".
Proof.
  pose proof (exit_code_is_recorded
                (hostOf (Some "build") [build] [ended build None] None) "/proj" None world0
                {| taskName := Some "build"; exitCode := None; failedToFindTask := false |}
                (snd (tryRunPreDeployTask
                        (hostOf (Some "build") [build] [ended build None] None)
                        "/proj" None world0))) as Hw.
  specialize (Hw ltac:(vm_compute; reflexivity)).
  destruct Hw as [Hlaunched _]. apply Hlaunched; reflexivity.
Defined.

(** ** Further properties: what is executed, asked and thrown *)

Lemma executions_app l l' : executions (l ++ l') = executions l ++ executions l'.
Proof.
  induction l as [| [] l IH]; simpl; try assumption; [reflexivity | now rewrite IH].
Qed.

Lemma commands_app l l' : commands (l ++ l') = commands l ++ commands l'.
Proof.
  induction l as [| [] l IH]; simpl; try assumption; [reflexivity | now rewrite IH].
Qed.

(** The wait registers and disposes of a listener, and that is all. *)
Lemma waitForPreDeployTask_quiet `{PathUtils} h t p w :
  executions (effects (snd (waitForPreDeployTask h t p w))) = executions (effects w)
  /\ commands (effects (snd (waitForPreDeployTask h t p w))) = commands (effects w).
Proof.
  destruct (waitForPreDeployTask_cases h t p w)
    as [[_ ->] | (pre & e & later & _ & _ & _ & ->)]; simpl;
    rewrite executions_app, commands_app.
  - simpl. now rewrite !app_nil_r.
  - unfold disposals.
    destruct (failedInScope p e), (sameTask (task (execution e)) t);
      simpl; now rewrite !app_nil_r.
Qed.

Lemma tryRun_commands `{PathUtils} h p scm w :
  commands (effects (snd (tryRunPreDeployTask h p scm w))) = commands (effects w).
Proof.
  destruct (tryRun_cases h p scm w)
    as [[_ ->] | [(n & _ & _ & _ & ->) | [(n & _ & _ & _ & _ & ->) | (n & t & _ & _ & _ & _ & ->)]]];
    simpl; rewrite ?commands_app; simpl; rewrite ?app_nil_r; try reflexivity.
  rewrite launched_effects.
  destruct (waitForPreDeployTask_quiet h t p
    (after (recording w "hasPreDeployTask" "true")
           [FetchTasks; WithProgress (runningMessage n); ExecuteTask t])) as [_ ->].
  simpl. rewrite commands_app. simpl. now rewrite app_nil_r.
Qed.

Lemma searched_matches `{PathUtils} h p n t :
  searched h p n = Some t ->
  In t (registeredTasks h)
  /\ (isTaskEqual n p t = true \/ isTaskEqual (taskNameWithoutSource n) p t = true).
Proof.
  unfold searched, orElse. intros Hsearch.
  destruct (List.find (isTaskEqual n p) (registeredTasks h)) as [t0 |] eqn:Hexact.
  - inversion Hsearch; subst. apply List.find_some in Hexact as [Hin Hmatch]. auto.
  - apply List.find_some in Hsearch as [Hin Hmatch]. auto.
Qed.

(** X12. [handleFailedPreDeployTask] opens exactly one dialog, whatever the
    result it is given, and returns normally exactly when the first button,
    Deploy Anyway, is picked; every other answer, and the closing of the
    dialog, ends in a user-cancellation error, and the settings are opened
    only for the second button. *)
Theorem handleFailed_returns_iff_deploy_anyway h r w :
  (fst (handleFailedPreDeployTask h r w) = Returned tt <-> picked h = Some 0)
  /\ (picked h <> Some 0 ->
      fst (handleFailedPreDeployTask h r w) = Thrown UserCancelledError)
  /\ prompts (effects (snd (handleFailedPreDeployTask h r w))) = prompts (effects w) + 1
  /\ commands (effects (snd (handleFailedPreDeployTask h r w)))
     = commands (effects w)
       ++ match picked h with
          | Some 1 => ["workbench.action.openSettings"]
          | _ => []
          end.
Proof.
  rewrite handleFailedPreDeployTask_answers.
  destruct (picked h) as [[| [| i]] |]; simpl;
    rewrite ?commands_app, ?prompts_app; simpl; rewrite ?app_nil_r;
    repeat split; try congruence; try discriminate;
    unfold failurePrompt; cbn; lia.
Qed.

(** X13. [runPreDeployTask] opens the settings only on request: the
    commands run are those run before, followed by
    [workbench.action.openSettings] once when a task was launched, it ended
    with a defined exit code other than 0 and the second button was
    picked. *)
Theorem settings_open_only_on_request `{PathUtils} h p scm w :
  commands (effects (snd (runPreDeployTask h p scm w))) = commands (effects w)
  \/ (picked h = Some 1
      /\ (exists r w1 z,
            tryRunPreDeployTask h p scm w = (Returned r, w1)
            /\ exitCode r = Some z /\ z <> 0%Z)
      /\ commands (effects (snd (runPreDeployTask h p scm w)))
         = commands (effects w) ++ ["workbench.action.openSettings"]).
Proof.
  pose proof (tryRun_commands h p scm w) as Hcommands.
  destruct (tryRunPreDeployTask h p scm w) as [[r | e |] w1] eqn:Hrun; simpl in Hcommands.
  - rewrite (runPreDeployTask_returned h p scm w r w1 Hrun).
    destruct (failedToFindTask r); [now left |].
    destruct (exitCode r) as [z |] eqn:Hcode; [| now left]. simpl.
    destruct (z =? 0)%Z eqn:Hz; [now left |]. simpl.
    rewrite handleFailedPreDeployTask_answers.
    destruct (picked h) as [[| [| i]] |]; simpl;
      rewrite ?commands_app; simpl; rewrite ?app_nil_r; auto.
    right. split; [reflexivity |]. split.
    + exists r, w1, z. repeat split; try assumption. now apply Z.eqb_neq.
    + now rewrite Hcommands.
  - now apply tryRun_never_throws in Hrun.
  - rewrite (runPreDeployTask_pending h p scm w w1 Hrun). now left.
Qed.

(** X14. [runPreDeployTask] opens the error dialog once when
    [tryRunPreDeployTask] returns a defined exit code other than 0, and
    never otherwise: not for a task that is not found, not for a missing
    exit code, not while the wait is pending. *)
Theorem dialog_only_for_a_failed_task `{PathUtils} h p scm w :
  prompts (effects (snd (runPreDeployTask h p scm w)))
  = prompts (effects w)
    + match fst (tryRunPreDeployTask h p scm w) with
      | Returned r => if isDefined (exitCode r) && isNonZero (exitCode r) then 1 else 0
      | _ => 0
      end.
Proof.
  pose proof (tryRun_prompts h p scm w) as Hprompts.
  destruct (tryRunPreDeployTask h p scm w) as [[r | e |] w1] eqn:Hrun; simpl in *.
  - rewrite (runPreDeployTask_returned h p scm w r w1 Hrun).
    destruct (failedToFindTask r) eqn:Hfailed.
    + assert (Hcode : exitCode r = None).
      { destruct (tryRun_returned h p scm w r w1 Hrun)
          as [[_ ->] | [(n & _ & _ & _ & ->) | [(n & _ & _ & _ & ->) | (_ & _ & Hfound & _)]]];
          try reflexivity. congruence. }
      rewrite Hcode. simpl. lia.
    + destruct (isDefined (exitCode r) && isNonZero (exitCode r)); simpl; [| lia].
      rewrite handleFailedPreDeployTask_answers.
      destruct (picked h) as [[| [| i]] |]; simpl; rewrite ?prompts_app; cbn; lia.
  - now apply tryRun_never_throws in Hrun.
  - rewrite (runPreDeployTask_pending h p scm w w1 Hrun). simpl. lia.
Qed.

(** X15. When a task is launched and no process-end event is for it or is
    a failure in the scope of the deploy path, [runPreDeployTask] never
    settles: there is no time limit, no exit code is recorded, the listener
    stays registered and the deploy neither proceeds nor fails. *)
Theorem silent_host_blocks_the_deploy `{PathUtils} h p scm w n t :
  configured h p = Some n ->
  Js.truthy (Some n) = true ->
  serverSideBuild scm = false ->
  searched h p n = Some t ->
  Forall (fun e => reacts t p e = false) (processEnds h) ->
  runPreDeployTask h p scm w
  = (Pending,
     after (recording w "hasPreDeployTask" "true")
           [FetchTasks; WithProgress (runningMessage n); ExecuteTask t;
            OnDidEndTaskProcess]).
Proof.
  intros Hcfg Htruthy Hscm Hsearch Hall.
  apply runPreDeployTask_pending.
  rewrite (tryRun_found h p scm w n t Hcfg Htruthy Hscm Hsearch).
  destruct (waitForPreDeployTask_cases h t p
    (after (recording w "hasPreDeployTask" "true")
           [FetchTasks; WithProgress (runningMessage n); ExecuteTask t]))
    as [[_ ->] | (pre & e & later & Hends & _ & He & _)].
  - unfold launched, after. simpl. now rewrite <- app_assoc.
  - rewrite Hends in Hall. apply Forall_app in Hall as [_ Hall].
    inversion Hall; congruence.
Qed.

Lemma silent_host_blocks_the_deploy_witness :
  runPreDeployTask
    (hostOf (Some "build") [build]
            [ended lint (Some 0%Z); ended elsewhere (Some 1%Z); ended globalBuild (Some 2%Z)]
            (Some 0))
    "/proj" None world0
  = (Pending,
     after (recording world0 "hasPreDeployTask" "true")
           [FetchTasks; WithProgress (runningMessage "build"); ExecuteTask build;
            OnDidEndTaskProcess]).
Proof.
  apply (silent_host_blocks_the_deploy
           (hostOf (Some "build") [build]
                   [ended lint (Some 0%Z); ended elsewhere (Some 1%Z);
                    ended globalBuild (Some 2%Z)]
                   (Some 0))
           "/proj" None world0 "build" build).
  - reflexivity.
  - reflexivity.
  - reflexivity.
  - reflexivity.
  - repeat constructor.
Defined.

(** X16. [tryRunPreDeployTask] executes at most one task, and only a
    task that it found: a registered task whose name is, up to case, the
    configured name or the configured name without its source, and whose
    scope is accepted for the deploy path; and never with a server-side
    build. *)
Theorem executed_task_is_a_match `{PathUtils} h p scm w :
  executions (effects (snd (tryRunPreDeployTask h p scm w))) = executions (effects w)
  \/ exists n t,
       configured h p = Some n
       /\ serverSideBuild scm = false
       /\ In t (registeredTasks h)
       /\ (Js.toLowerCase n = Js.toLowerCase (name t)
           \/ Js.toLowerCase (taskNameWithoutSource n) = Js.toLowerCase (name t))
       /\ isScopeEqual t p = true
       /\ executions (effects (snd (tryRunPreDeployTask h p scm w)))
          = executions (effects w) ++ [t].
Proof.
  destruct (tryRun_cases h p scm w)
    as [[_ ->] | [(n & _ & _ & _ & ->) | [(n & _ & _ & _ & _ & ->) | (n & t & Hc & _ & Hs & Hsearch & ->)]]];
    simpl; rewrite ?executions_app; simpl; rewrite ?app_nil_r; auto.
  right. exists n, t.
  destruct (searched_matches h p n t Hsearch) as [Hin Hmatch].
  assert (Hscope : isScopeEqual t p = true).
  { destruct Hmatch as [Hmatch | Hmatch]; rewrite isTaskEqual_spec in Hmatch;
      now apply andb_true_iff in Hmatch. }
  repeat split; try assumption.
  - destruct Hmatch as [Hmatch | Hmatch]; rewrite isTaskEqual_spec in Hmatch;
      apply andb_true_iff in Hmatch as [Hname _]; apply String.eqb_eq in Hname; auto.
  - rewrite launched_effects.
    destruct (waitForPreDeployTask_quiet h t p
      (after (recording w "hasPreDeployTask" "true")
             [FetchTasks; WithProgress (runningMessage n); ExecuteTask t])) as [-> _].
    simpl. now rewrite executions_app.
Qed.

(** X17. A setting with a source finds a task named without it: when the
    configured name is [source: name], with a source without colon and a
    name that does not begin with white space, and a registered task has
    that name up to case and a scope accepted for the deploy path, then,
    without a server-side build, a task is found, executed and waited
    for. *)
Theorem setting_with_source_finds_task `{PathUtils} h p scm w (source spaces n : string) t :
  Js.afterFirstColon source = None ->
  allWhiteSpace spaces = true ->
  beginsWithWhiteSpace n = false ->
  configured h p = Some (source ++ String ":"%char (spaces ++ n))%string ->
  serverSideBuild scm = false ->
  In t (registeredTasks h) ->
  Js.toLowerCase (name t) = Js.toLowerCase n ->
  isScopeEqual t p = true ->
  exists found,
    searched h p (source ++ String ":"%char (spaces ++ n)) = Some found
    /\ tryRunPreDeployTask h p scm w
       = launched
           (waitForPreDeployTask h found p
              (after (recording w "hasPreDeployTask" "true")
                     [FetchTasks;
                      WithProgress (runningMessage (source ++ String ":"%char (spaces ++ n)));
                      ExecuteTask found])).
Proof.
  intros Hsource Hspaces Hn Hcfg Hscm Hin Hname Hscope.
  assert (Hstrip : taskNameWithoutSource (source ++ String ":"%char (spaces ++ n)) = n).
  { unfold taskNameWithoutSource. rewrite (afterFirstColon_app source _ Hsource).
    now apply skipWhiteSpace_app. }
  assert (Hmatch : isTaskEqual n p t = true).
  { rewrite isTaskEqual_spec, Hscope, Hname. now rewrite String.eqb_refl. }
  assert (Hsearch : exists found,
             searched h p (source ++ String ":"%char (spaces ++ n)) = Some found).
  { unfold searched. rewrite Hstrip.
    destruct (List.find (isTaskEqual (source ++ String ":"%char (spaces ++ n)) p) _);
      [eauto |].
    simpl. now apply (find_among _ _ t). }
  destruct Hsearch as [found Hfound]. exists found. split; [assumption |].
  apply tryRun_found; try assumption.
  destruct source; reflexivity.
Qed.

Lemma setting_with_source_finds_task_witness :
  exists found,
    searched (hostOf (Some "npm:   BUILD") [lint; build] [] None) "/proj/client" "npm:   BUILD"
    = Some found.
Proof.
  pose proof (setting_with_source_finds_task
                (hostOf (Some "npm:   BUILD") [lint; build] [] None)
                "/proj/client" None world0 "npm" "   " "BUILD" build) as Hw.
  specialize (Hw ltac:(reflexivity) ltac:(reflexivity) ltac:(reflexivity)
                 ltac:(reflexivity) ltac:(reflexivity) ltac:(simpl; auto)
                 ltac:(reflexivity) ltac:(reflexivity)).
  destruct Hw as (found & Hfound & _). exists found. exact Hfound.
Defined.
